(** * Longer Ray5 Connector: a shallow embedding of [ray5_connector.py]

    The development follows the source file top to bottom:
    - [Py]: the few Python library functions the program relies on
      ([in] on strings, [str.lower], [str.strip], [os.path.basename],
      [urllib.parse.quote], [re.search] for the one pattern used);
    - [Ray5Client]: the HTTP client class, over an explicit transport;
    - [Ray5App]: the application object as a record, its methods as state
      transformers, the Tk [after] queue and the worker threads made explicit.

    Strings are byte strings; [lower] and [strip] are modelled on ASCII.
    The colour arithmetic of [fade_dot] and [fade_item] (floating point,
    presentation only) is left out, and so are the widgets that hold no
    state of the session.  A worker thread is run against the state it finds
    when its network call returns; the code between two network calls is
    taken as one step.  The confirmation dialog is a widget; [delete] takes
    its answer, and the names read back from the selection, as arguments. *)

From Stdlib Require Import String Ascii List ZArith Bool Lia DecimalString.
Import ListNotations.
Open Scope string_scope.

(** ** Python library functions *)
Module Py.

(** [needle in hay] on strings. *)
Fixpoint contains (needle hay : string) : bool :=
  match hay with
  | EmptyString => prefix needle hay
  | String _ rest => prefix needle hay || contains needle rest
  end.

Definition is_upper (c : ascii) : bool :=
  (Ascii.leb "A" c && Ascii.leb c "Z")%char.

Definition lower_char (c : ascii) : ascii :=
  if is_upper c then ascii_of_nat (nat_of_ascii c + 32) else c.

(** [s.lower()] *)
Fixpoint lower (s : string) : string :=
  match s with
  | EmptyString => EmptyString
  | String c rest => String (lower_char c) (lower rest)
  end.

(** ASCII white space, as [str.isspace] has it: the blank, tab to carriage
    return, and the four separators 28 to 31. *)
Definition is_space (c : ascii) : bool :=
  let n := nat_of_ascii c in
  (n =? 32)%nat || ((9 <=? n)%nat && (n <=? 13)%nat)
  || ((28 <=? n)%nat && (n <=? 31)%nat).

Fixpoint lstrip (s : string) : string :=
  match s with
  | String c rest => if is_space c then lstrip rest else s
  | EmptyString => EmptyString
  end.

Fixpoint rstrip (s : string) : string :=
  match s with
  | EmptyString => EmptyString
  | String c rest =>
      match rstrip rest with
      | EmptyString => if is_space c then EmptyString else String c EmptyString
      | kept => String c kept
      end
  end.

(** [s.strip()] *)
Definition strip (s : string) : string := rstrip (lstrip s).

(** [os.path.basename] as [posixpath] has it: what follows the last slash. *)
Fixpoint basename (p : string) : string :=
  match p with
  | EmptyString => EmptyString
  | String c rest =>
      if contains "/" rest then basename rest
      else if (c =? "/")%char then rest else p
  end.

Definition str_of_Z (z : Z) : string := NilZero.string_of_int (Z.to_int z).

Definition hex_digit (n : nat) : ascii :=
  if (n <? 10)%nat then ascii_of_nat (48 + n) else ascii_of_nat (55 + n).

Definition is_digit (c : ascii) : bool := (Ascii.leb "0" c && Ascii.leb c "9")%char.
Definition is_lower (c : ascii) : bool := (Ascii.leb "a" c && Ascii.leb c "z")%char.

(** Characters [urllib.parse.quote] leaves alone with its default [safe="/"]. *)
Definition quote_safe (c : ascii) : bool :=
  is_upper c || is_lower c || is_digit c
  || (c =? "_")%char || (c =? ".")%char || (c =? "-")%char
  || (c =? "~")%char || (c =? "/")%char.

(** [urllib.parse.quote(s)] *)
Fixpoint quote (s : string) : string :=
  match s with
  | EmptyString => EmptyString
  | String c rest =>
      if quote_safe c then String c (quote rest)
      else
        let n := nat_of_ascii c in
        String "%" (String (hex_digit (n / 16)) (String (hex_digit (n mod 16)) (quote rest)))
  end.

(** The character class [[0-9A-F:]] of the hardware-address pattern. *)
Definition is_mac_char (c : ascii) : bool :=
  is_digit c || (Ascii.leb "A" c && Ascii.leb c "F")%char || (c =? ":")%char.

(** Longest prefix of [s] inside the class, and what follows it. *)
Fixpoint span_mac (s : string) : string * string :=
  match s with
  | String c rest =>
      if is_mac_char c then let (run, tl) := span_mac rest in (String c run, tl)
      else (EmptyString, s)
  | EmptyString => (EmptyString, EmptyString)
  end.

Fixpoint drop (n : nat) (s : string) : string :=
  match n, s with
  | S k, String _ rest => drop k rest
  | _, _ => s
  end.

(** A match of [STA \(([0-9A-F:]+)\)] anchored at the start of [s]; the
    result is group 1.  The closing parenthesis is outside the class, so the
    greedy [+] can only succeed with the longest run: shorter runs would
    need [")"] where a class character stands. *)
Definition match_sta (s : string) : option string :=
  if prefix "STA (" s then
    match span_mac (drop 5 s) with
    | (String c run, String ")" _) => Some (String c run)
    | _ => None
    end
  else None.

(** [re.search(r"STA \(([0-9A-F:]+)\)", s)], as [group(1)] of the leftmost
    match. *)
Fixpoint search_sta (s : string) : option string :=
  match match_sta s with
  | Some g => Some g
  | None =>
      match s with
      | EmptyString => None
      | String _ rest => search_sta rest
      end
  end.

(** Parsed JSON documents, as [json.loads] returns them (numbers are
    integers here: the device reports sizes in bytes). *)
#[warnings="-register-all"]
Inductive json : Type :=
| JNull
| JBool (b : bool)
| JNum (z : Z)
| JStr (s : string)
| JArr (items : list json)
| JObj (fields : list (string * json)).

(** [d.get(key)] on a dict built from a JSON object: the last binding of a
    repeated key wins. *)
Fixpoint dict_get (key : string) (fields : list (string * json)) : option json :=
  match fields with
  | [] => None
  | (k, v) :: rest =>
      match dict_get key rest with
      | Some later => Some later
      | None => if (k =? key)%string then Some v else None
      end
  end.

Definition type_name (j : json) : string :=
  match j with
  | JNull => "NoneType"
  | JBool _ => "bool"
  | JNum _ => "int"
  | JStr _ => "str"
  | JArr _ => "list"
  | JObj _ => "dict"
  end.

(** A call that either returns or raises; [Raise] carries [str(e)]. *)
Inductive outcome (A : Type) : Type :=
| Return (a : A)
| Raise (e : string).
Arguments Return {A} a.
Arguments Raise {A} e.

(** [s.split()]: the maximal runs of characters that are not white space.
    [cur] is the run being read. *)
Fixpoint split_from (cur : string) (s : string) : list string :=
  match s with
  | EmptyString =>
      match cur with
      | EmptyString => []
      | _ => [cur]
      end
  | String c rest =>
      if is_space c then
        match cur with
        | EmptyString => split_from EmptyString rest
        | _ => cur :: split_from EmptyString rest
        end
      else split_from (cur ++ String c EmptyString) rest
  end.

Definition split (s : string) : list string := split_from EmptyString s.

(** Does a closing brace come before the end of the line?  The dot of the
    pattern [\{(.*?)\}] matches anything but a newline, so an opening brace
    starts a match exactly when this holds for what follows it. *)
Fixpoint closes (s : string) : bool :=
  match s with
  | EmptyString => false
  | String c rest =>
      if (c =? "}")%char then true
      else if (nat_of_ascii c =? 10)%nat then false
      else closes rest
  end.

(** One pass over [s] for the pattern [\{(.*?)\}]: the groups of the
    matches, left to right and not overlapping, and the text outside the
    matches.  [inside] tells that a match has begun; the lazy [.*?] ends it
    at the first closing brace; the group being read is the head of the
    result. *)
Fixpoint scan_braces (inside : bool) (s : string) : list string * string :=
  match s with
  | EmptyString => ([], EmptyString)
  | String c rest =>
      if inside then
        if (c =? "}")%char then
          let (groups, outside) := scan_braces false rest in
          (EmptyString :: groups, outside)
        else
          match scan_braces true rest with
          | (g :: groups, outside) => (String c g :: groups, outside)
          | ([], outside) => ([], outside)
          end
      else if (c =? "{")%char && closes rest then scan_braces true rest
      else
        let (groups, outside) := scan_braces false rest in
        (groups, String c outside)
  end.

(** [re.findall(r'\{(.*?)\}', s)] *)
Definition findall_braces (s : string) : list string := fst (scan_braces false s).

(** [re.sub(r'\{.*?\}', '', s)] *)
Definition sub_braces (s : string) : string := snd (scan_braces false s).

End Py.

(** ** What the program does to the outside: log records and HTTP requests *)
Inductive level : Type := DEBUG | INFO | WARNING | ERROR.

Inductive request : Type :=
| GET (url : string)
| POST (url filename : string) (filesize : Z).

Inductive event : Type :=
| Log (lv : level) (msg : string)
| Net (r : request).

Definition is_error (e : event) : bool :=
  match e with Log ERROR _ => true | _ => false end.

Definition is_net (e : event) : bool :=
  match e with Net _ => true | _ => false end.

(** ** class Ray5Client *)
Module Ray5Client.
Import Py.

(** What [requests] hands back: a status, the body as text, and what
    [json.loads] makes of the body ([Raise] when it is malformed). *)
Record reply : Type := {
  status_code : Z;
  text : string;
  loads : outcome json
}.

(** The network and the local system, as the program sees them.
    [http] stands for [requests.get] and [requests.post] ([Raise] is a
    timeout, a refused connection and the like); the other fields are
    [os.path.isdir], [os.path.getsize], [open(path, "rb")],
    [open(path, "w")] and [socket.inet_aton].  A world is the outside at
    one moment; steps taken at different moments may be given different
    worlds. *)
Record world : Type := {
  http : request -> outcome reply;
  isdir : string -> bool;
  getsize : string -> outcome Z;
  open_rb : string -> outcome unit;
  open_w : string -> outcome unit;
  inet_aton : string -> bool
}.

Record t : Type := { ip : string; port : Z; mac : option string }.

(** [Ray5Client(ip)] *)
Definition new (ip : string) : t := {| ip := ip; port := 8848; mac := None |}.

Definition base_url (self : t) : string :=
  "http://" ++ ip self ++ ":" ++ str_of_Z (port self).

(** The three requests the methods build. *)
Definition files_request (self : t) (path : string) : request :=
  let encoded_path := quote path in
  GET (base_url self ++ "/files?path=" ++ encoded_path).

Definition upload_request (self : t) (remote_path filename : string) (filesize : Z)
  : request :=
  let encoded_path := quote remote_path in
  POST (base_url self ++ "/upload?path=" ++ encoded_path) filename filesize.

Definition command_request (self : t) (cmd : string) : request :=
  let encoded_cmd := quote cmd in
  GET (base_url self ++ "/command?plain=" ++ encoded_cmd).

(** [get_files(path="/")]: the listing, with the events of the call. *)
Definition get_files (w : world) (self : t) (path : string) : json * list event :=
  let req := files_request self path in
  match http w req with
  | Return r =>
      if (status_code r =? 200)%Z then
        match loads r with
        | Return (JObj fields) =>
            match dict_get "files" fields with
            | Some files => (files, [Net req])
            | None => (JArr [], [Net req])
            end
        | Return other =>
            (JArr [],
             [Net req;
              Log ERROR ("Error getting files: '" ++ type_name other
                           ++ "' object has no attribute 'get'")])
        | Raise e => (JArr [], [Net req; Log ERROR ("Error getting files: " ++ e)])
        end
      else
        (JArr [],
         [Net req; Log ERROR ("Failed to get files: HTTP " ++ str_of_Z (status_code r))])
  | Raise e => (JArr [], [Net req; Log ERROR ("Error getting files: " ++ e)])
  end.

(** [upload_file(local_path, remote_path="/")].  [os.path.getsize] is
    called before the [try] block is entered. *)
Definition upload_file (w : world) (self : t) (local_path remote_path : string)
  : outcome string * list event :=
  let filename := basename local_path in
  match getsize w local_path with
  | Raise e => (Raise e, [])
  | Return filesize =>
      match open_rb w local_path with
      | Raise e =>
          (Return ("Upload error: " ++ e),
           [Log ERROR ("Upload error for " ++ filename ++ ": " ++ e)])
      | Return _ =>
          let req := upload_request self remote_path filename filesize in
          match http w req with
          | Raise e =>
              (Return ("Upload error: " ++ e),
               [Net req; Log ERROR ("Upload error for " ++ filename ++ ": " ++ e)])
          | Return r =>
              if (status_code r =? 200)%Z then
                (Return "Upload successful",
                 [Net req; Log INFO ("Uploaded " ++ filename ++ " successfully")])
              else
                (Return ("Upload failed: " ++ str_of_Z (status_code r)),
                 [Net req;
                  Log ERROR ("Upload failed: " ++ str_of_Z (status_code r)
                               ++ " " ++ text r)])
          end
      end
  end.

(** [send_command(cmd)]: the body whatever the status, or the error text. *)
Definition send_command (w : world) (self : t) (cmd : string) : string * list event :=
  let req := command_request self cmd in
  match http w req with
  | Return r => (text r, [Net req])
  | Raise e =>
      ("Command error: " ++ e,
       [Net req; Log ERROR ("Command error (" ++ cmd ++ "): " ++ e)])
  end.

Definition delete_request (self : t) (filename : string) : request :=
  let encoded_filename := quote filename in
  GET (base_url self ++ "/command?commandText=$SD/Delete=" ++ encoded_filename).

(** [delete_file(filename, path="/")] *)
Definition delete_file (w : world) (self : t) (filename : string) : string * list event :=
  let req := delete_request self filename in
  match http w req with
  | Return r =>
      if (status_code r =? 200)%Z then
        ("Delete command sent",
         [Net req; Log INFO ("Deleted " ++ filename ++ " successfully")])
      else
        ("Delete failed: " ++ str_of_Z (status_code r),
         [Net req;
          Log ERROR ("Delete failed for " ++ filename ++ ": HTTP "
                       ++ str_of_Z (status_code r))])
  | Raise e =>
      ("Delete error: " ++ e,
       [Net req; Log ERROR ("Delete error for " ++ filename ++ ": " ++ e)])
  end.

End Ray5Client.

(** ** class Ray5App *)
Module Ray5App.
Import Py.

(** Tags of a tree row: ["new_file"], or ["fade_<item>_<seconds>"]. *)
Inductive tag : Type :=
| NewFile
| Fade (iid : nat) (seconds_left : Z).

(** A row of the [Treeview]: its identifier, its two values and its tags.
    A value that the listing entry lacks is [JNull], Python's [None]. *)
Record item : Type := { iid : nat; name : json; size : json; tags : list tag }.

(** Fill of the keepalive dot: ["gray"], ["#00FF00"], a computed shade for a
    fade step, ["#004400"]. *)
Inductive dot_fill : Type := Gray | BrightGreen | Shade (step : Z) | DarkGreen.

(** The callbacks handed to [root.after], one constructor per call site. *)
Inductive callback : Type :=
| OnConnected (ip mac : string)
| ConnectionFailed
| FlashDot
| Check
| FadeDot (step : Z)
| PopulateTree (files : json) (new_filenames : option (list string))
| FadeItem (iid : nat) (seconds_left : Z)
| UpdateStatusText
| RefreshList (new_filenames : option (list string)).

(** The bodies handed to [threading.Thread], one constructor per call site. *)
Inductive worker : Type :=
| ConnectTask (ip : string)
| CheckTask
| RefreshTask (new_filenames : option (list string))
| UploadTask (paths : list string).

(** The application object.  [config_json] is the content of
    [config.json]; [next_iid] numbers the rows the tree creates, never
    reusing an identifier; [timers] are the pending [after] calls, oldest
    first; [threads] the threads started so far; [trace] the log records
    and HTTP requests, oldest first. *)
Record t : Type := mk {
  running : bool;
  connected : bool;
  client : Ray5Client.t;
  current_mac : string;
  config_json : option json;
  ip_var : string;
  ip_entry_enabled : bool;
  btn_connect : string;
  status_label : string;
  dot : dot_fill;
  tree : list item;
  next_iid : nat;
  timers : list (Z * callback);
  threads : list worker;
  trace : list event
}.

(** Record update, one function per field. *)
Definition set_running (v : bool) (s : t) : t :=
  mk v (connected s) (client s) (current_mac s) (config_json s) (ip_var s)
     (ip_entry_enabled s) (btn_connect s) (status_label s) (dot s) (tree s)
     (next_iid s) (timers s) (threads s) (trace s).
Definition set_connected (v : bool) (s : t) : t :=
  mk (running s) v (client s) (current_mac s) (config_json s) (ip_var s)
     (ip_entry_enabled s) (btn_connect s) (status_label s) (dot s) (tree s)
     (next_iid s) (timers s) (threads s) (trace s).
Definition set_client (v : Ray5Client.t) (s : t) : t :=
  mk (running s) (connected s) v (current_mac s) (config_json s) (ip_var s)
     (ip_entry_enabled s) (btn_connect s) (status_label s) (dot s) (tree s)
     (next_iid s) (timers s) (threads s) (trace s).
Definition set_current_mac (v : string) (s : t) : t :=
  mk (running s) (connected s) (client s) v (config_json s) (ip_var s)
     (ip_entry_enabled s) (btn_connect s) (status_label s) (dot s) (tree s)
     (next_iid s) (timers s) (threads s) (trace s).
Definition set_config_json (v : option json) (s : t) : t :=
  mk (running s) (connected s) (client s) (current_mac s) v (ip_var s)
     (ip_entry_enabled s) (btn_connect s) (status_label s) (dot s) (tree s)
     (next_iid s) (timers s) (threads s) (trace s).
Definition set_ip_var (v : string) (s : t) : t :=
  mk (running s) (connected s) (client s) (current_mac s) (config_json s) v
     (ip_entry_enabled s) (btn_connect s) (status_label s) (dot s) (tree s)
     (next_iid s) (timers s) (threads s) (trace s).
Definition set_ip_entry_enabled (v : bool) (s : t) : t :=
  mk (running s) (connected s) (client s) (current_mac s) (config_json s)
     (ip_var s) v (btn_connect s) (status_label s) (dot s) (tree s)
     (next_iid s) (timers s) (threads s) (trace s).
Definition set_btn_connect (v : string) (s : t) : t :=
  mk (running s) (connected s) (client s) (current_mac s) (config_json s)
     (ip_var s) (ip_entry_enabled s) v (status_label s) (dot s) (tree s)
     (next_iid s) (timers s) (threads s) (trace s).
Definition set_status_label (v : string) (s : t) : t :=
  mk (running s) (connected s) (client s) (current_mac s) (config_json s)
     (ip_var s) (ip_entry_enabled s) (btn_connect s) v (dot s) (tree s)
     (next_iid s) (timers s) (threads s) (trace s).
Definition set_dot (v : dot_fill) (s : t) : t :=
  mk (running s) (connected s) (client s) (current_mac s) (config_json s)
     (ip_var s) (ip_entry_enabled s) (btn_connect s) (status_label s) v
     (tree s) (next_iid s) (timers s) (threads s) (trace s).
Definition set_tree (v : list item) (s : t) : t :=
  mk (running s) (connected s) (client s) (current_mac s) (config_json s)
     (ip_var s) (ip_entry_enabled s) (btn_connect s) (status_label s) (dot s)
     v (next_iid s) (timers s) (threads s) (trace s).
Definition set_next_iid (v : nat) (s : t) : t :=
  mk (running s) (connected s) (client s) (current_mac s) (config_json s)
     (ip_var s) (ip_entry_enabled s) (btn_connect s) (status_label s) (dot s)
     (tree s) v (timers s) (threads s) (trace s).
Definition set_timers (v : list (Z * callback)) (s : t) : t :=
  mk (running s) (connected s) (client s) (current_mac s) (config_json s)
     (ip_var s) (ip_entry_enabled s) (btn_connect s) (status_label s) (dot s)
     (tree s) (next_iid s) v (threads s) (trace s).
Definition set_threads (v : list worker) (s : t) : t :=
  mk (running s) (connected s) (client s) (current_mac s) (config_json s)
     (ip_var s) (ip_entry_enabled s) (btn_connect s) (status_label s) (dot s)
     (tree s) (next_iid s) (timers s) v (trace s).
Definition set_trace (v : list event) (s : t) : t :=
  mk (running s) (connected s) (client s) (current_mac s) (config_json s)
     (ip_var s) (ip_entry_enabled s) (btn_connect s) (status_label s) (dot s)
     (tree s) (next_iid s) (timers s) (threads s) v.

(** [root.after(ms, cb)] *)
Definition after (ms : Z) (cb : callback) (s : t) : t :=
  set_timers (timers s ++ [(ms, cb)]) s.

(** [threading.Thread(target=..., daemon=True).start()] *)
Definition spawn (wk : worker) (s : t) : t :=
  set_threads (threads s ++ [wk]) s.

Definition emit (evs : list event) (s : t) : t :=
  set_trace (trace s ++ evs) s.

Definition logging (lv : level) (msg : string) (s : t) : t :=
  emit [Log lv msg] s.

(** [on_closing]: [root.destroy()] ends the main loop; every pending
    callback is guarded by [running] and does nothing from here on. *)
Definition on_closing (s : t) : t := set_running false s.

(** What [save_config(mac, ip)] dumps. *)
Definition config_of (mac ip : string) : json :=
  JObj [("last_mac", JStr mac); ("last_ip", JStr ip)].

(** [save_config(mac, ip)] *)
Definition save_config (w : Ray5Client.world) (mac ip : string) (s : t) : t :=
  match Ray5Client.open_w w "config.json" with
  | Return _ =>
      set_config_json (Some (config_of mac ip)) s
  | Raise e => logging ERROR ("Failed to save config: " ++ e) s
  end.

(** [disconnect] *)
Definition disconnect (s : t) : t :=
  let s := set_connected false s in
  let s := set_ip_entry_enabled true s in
  let s := set_btn_connect "Connect / Scan" s in
  let s := set_status_label "Disconnected" s in
  let s := set_dot Gray s in
  let s := set_tree [] s in
  logging INFO "Disconnected from laser" s.

Definition is_valid_ip (w : Ray5Client.world) (ip : string) : bool :=
  Ray5Client.inet_aton w ip.

(** [connect], up to the start of the thread. *)
Definition connect (w : Ray5Client.world) (s : t) : t :=
  let ip := strip (ip_var s) in
  if negb (is_valid_ip w ip) then
    let s := logging ERROR ("Invalid IP address: " ++ ip) s in
    set_status_label "Invalid IP" s
  else
    let s := set_status_label "Connecting..." s in
    let s := logging INFO ("Attempting to connect to " ++ ip ++ "...") s in
    spawn (ConnectTask ip) s.

Definition tree_exists (i : nat) (s : t) : bool :=
  existsb (fun it => (iid it =? i)%nat) (tree s).

(** What [tree.item(item_id, tags=tgs)] does to one row. *)
Definition retag (i : nat) (tgs : list tag) (it : item) : item :=
  if (iid it =? i)%nat
  then {| iid := iid it; name := name it; size := size it; tags := tgs |}
  else it.

(** [tree.item(item_id, tags=tgs)] *)
Definition set_item_tags (i : nat) (tgs : list tag) (s : t) : t :=
  set_tree (map (retag i tgs) (tree s)) s.

(** [tree.insert("", "end", values=(name, size))]: the new row goes last
    and its identifier is returned. *)
Definition tree_insert (nm sz : json) (s : t) : nat * t :=
  let i := next_iid s in
  (i, set_next_iid (S i)
        (set_tree (tree s ++ [{| iid := i; name := nm; size := sz; tags := [] |}]) s)).

(** [fade_item(item_id, seconds_left)] *)
Definition fade_item (i : nat) (seconds_left : Z) (s : t) : t :=
  if negb (running s) || negb (tree_exists i s) then s
  else if (seconds_left <=? 0)%Z then set_item_tags i [] s
  else
    let s := set_item_tags i [Fade i seconds_left] s in
    after 1000 (FadeItem i (seconds_left - 1)) s.

(** [name in new_filenames], a JSON value against a list of [str]. *)
Definition name_in (nm : json) (names : list string) : bool :=
  match nm with
  | JStr n => existsb (String.eqb n) names
  | _ => false
  end.

(** [new_filenames and name in new_filenames] *)
Definition is_new (nm : json) (new_filenames : option (list string)) : bool :=
  match new_filenames with
  | None | Some [] => false
  | Some names => name_in nm names
  end.

Definition get_or_none (key : string) (fields : list (string * json)) : json :=
  match dict_get key fields with
  | Some v => v
  | None => JNull
  end.

(** The loop of [populate_tree].  An entry that is not an object has no
    [get]: the callback dies there and the rows inserted so far stay. *)
Fixpoint populate_rows (files : list json) (new_filenames : option (list string))
                       (s : t) : t :=
  match files with
  | [] => s
  | JObj fields :: rest =>
      let nm := get_or_none "name" fields in
      let (item_id, s) := tree_insert nm (get_or_none "size" fields) s in
      let s :=
        if is_new nm new_filenames then
          fade_item item_id 15 (set_item_tags item_id [NewFile] s)
        else s in
      populate_rows rest new_filenames s
  | _ :: _ => s
  end.

(** [populate_tree(files, new_filenames)].  A [files] that is not a list
    inserts nothing (iterating it yields no object). *)
Definition populate_tree (files : json) (new_filenames : option (list string))
                         (s : t) : t :=
  match files with
  | JArr entries => populate_rows entries new_filenames s
  | _ => s
  end.

(** [refresh_list(new_filenames=None)], up to the start of the thread. *)
Definition refresh_list (new_filenames : option (list string)) (s : t) : t :=
  if negb (connected s) || negb (running s) then s
  else spawn (RefreshTask new_filenames) (set_tree [] s).

(** The thread of [refresh_list], run in the state it finds when
    [get_files] returns. *)
Definition refresh_task (w : Ray5Client.world) (new_filenames : option (list string))
                        (s : t) : t :=
  let (files, evs) := Ray5Client.get_files w (client s) "/" in
  let s := emit evs s in
  if negb (running s) then s
  else after 0 (PopulateTree files new_filenames) s.

(** [update_status_text] *)
Definition update_status_text (s : t) : t :=
  if connected s then
    set_status_label
      ("Connected: " ++ Ray5Client.ip (client s) ++ " (" ++ current_mac s ++ ")") s
  else set_status_label "Disconnected" s.

(** [on_connected(ip, mac)] *)
Definition on_connected (ip mac : string) (s : t) : t :=
  let s := set_connected true s in
  let s := set_ip_entry_enabled false s in
  let s := set_btn_connect "Disconnect" s in
  let s := update_status_text s in
  refresh_list None s.

(** [mac_match.group(1) if mac_match else "Unknown"] *)
Definition mac_of (info : string) : string :=
  match search_sta info with
  | Some g => g
  | None => "Unknown"
  end.

(** The thread of [connect] from the return of [send_command] on, run in
    the state it finds then. *)
Definition connect_resume (w : Ray5Client.world) (ip info : string) (s : t) : t :=
  if negb (running s) then s
  else if contains "FW version" info then
    let mac := mac_of info in
    let s := set_client (Ray5Client.new ip) s in
    let s := set_current_mac mac s in
    let s := save_config w mac ip s in
    let s := logging INFO ("Connected to " ++ ip ++ " (MAC: " ++ mac ++ ")") s in
    if running s then after 0 (OnConnected ip mac) s else s
  else
    let s :=
      logging ERROR ("Could not connect to laser at " ++ ip ++ ". Response: " ++ info) s in
    if running s then after 0 ConnectionFailed s else s.

(** The thread of [connect]. *)
Definition connect_task (w : Ray5Client.world) (ip : string) (s : t) : t :=
  let (info, evs) := Ray5Client.send_command w (Ray5Client.new ip) "[ESP420]" in
  connect_resume w ip info (emit evs s).

(** [toggle_connect] *)
Definition toggle_connect (w : Ray5Client.world) (s : t) : t :=
  if connected s then disconnect s else connect w s.

(** [fade_dot(step)] *)
Definition fade_dot (step : Z) (s : t) : t :=
  if negb (running s) || (step <=? 0)%Z then
    if running s then set_dot DarkGreen s else s
  else after 50 (FadeDot (step - 1)) (set_dot (Shade step) s).

(** [flash_dot] *)
Definition flash_dot (s : t) : t :=
  if negb (running s) then s
  else fade_dot 10 (set_dot BrightGreen s).

(** [check] of [start_keepalive] from the return of [send_command] on. *)
Definition check_resume (res : string) (s : t) : t :=
  if negb (running s) then s
  else
    let s :=
      if negb (contains "error" (lower res)) then after 0 FlashDot s
      else logging DEBUG "Keepalive check failed" s in
    if running s then after 2000 Check s else s.

(** [check] of [start_keepalive]. *)
Definition check (w : Ray5Client.world) (s : t) : t :=
  if negb (running s) then s
  else if connected s then
    let (res, evs) := Ray5Client.send_command w (client s) "[ESP400]" in
    check_resume res (emit evs s)
  else if running s then after 2000 Check s
  else s.

(** [start_keepalive] *)
Definition start_keepalive (s : t) : t := spawn CheckTask s.

(** The loop of the thread of [perform_upload].  [Return None] is the
    [return] taken when the application is closing, [Raise] an exception
    that leaves the loop and ends the thread. *)
Fixpoint upload_loop (w : Ray5Client.world) (paths uploaded_names : list string)
                     (s : t) : outcome (option (list string)) * t :=
  match paths with
  | [] => (Return (Some uploaded_names), s)
  | path :: rest =>
      if negb (running s) then (Return None, s)
      else if Ray5Client.isdir w path then upload_loop w rest uploaded_names s
      else
        match Ray5Client.upload_file w (client s) path "/" with
        | (Raise e, evs) => (Raise e, emit evs s)
        | (Return res, evs) =>
            let s := emit evs s in
            if contains "successful" (lower res) then
              upload_loop w rest (uploaded_names ++ [basename path]) s
            else
              upload_loop w rest uploaded_names
                (logging ERROR ("Failed to upload " ++ basename path ++ ": " ++ res) s)
        end
  end.

(** The thread of [perform_upload]. *)
Definition upload_task (w : Ray5Client.world) (paths : list string) (s : t) : t :=
  match upload_loop w paths [] s with
  | (Return (Some uploaded_names), s) =>
      if running s then
        after 0 (RefreshList (Some uploaded_names)) (after 0 UpdateStatusText s)
      else s
  | (Return None, s) => s
  | (Raise _, s) => s
  end.

(** [perform_upload(paths)], up to the start of the thread. *)
Definition perform_upload (paths : list string) (s : t) : t :=
  if negb (running s) then s
  else
    let n := str_of_Z (Z.of_nat (List.length paths)) in
    let s := set_status_label ("Uploading " ++ n ++ " file(s)...") s in
    let s := logging INFO ("Starting upload of " ++ n ++ " files") s in
    spawn (UploadTask paths) s.

(** [upload], with the answer of the file dialog. *)
Definition upload (chosen : list string) (s : t) : t :=
  if negb (connected s) || negb (running s) then s
  else match chosen with
       | [] => s
       | _ => perform_upload chosen s
       end.

(** One callback of the [after] queue, as the main loop runs it: each
    lambda tests [running] first; [check] is registered bare. *)
Definition run_callback (w : Ray5Client.world) (cb : callback) (s : t) : t :=
  match cb with
  | Check => check w s
  | _ =>
      if running s then
        match cb with
        | OnConnected ip mac => on_connected ip mac s
        | ConnectionFailed => set_status_label "Connection Failed" s
        | FlashDot => flash_dot s
        | Check => s
        | FadeDot step => fade_dot step s
        | PopulateTree files new_filenames => populate_tree files new_filenames s
        | FadeItem i seconds_left => fade_item i seconds_left s
        | UpdateStatusText => update_status_text s
        | RefreshList new_filenames => refresh_list new_filenames s
        end
      else s
  end.

(** One worker thread, run to its end. *)
Definition run_worker (w : Ray5Client.world) (wk : worker) (s : t) : t :=
  match wk with
  | ConnectTask ip => connect_task w ip s
  | CheckTask => check w s
  | RefreshTask new_filenames => refresh_task w new_filenames s
  | UploadTask paths => upload_task w paths s
  end.

Definition remove_nth {A : Type} (n : nat) (l : list A) : list A :=
  firstn n l ++ skipn (S n) l.

(** The main loop runs the pending callback at position [n] of the
    queue (the one whose delay has elapsed) and forgets it. *)
Definition fire (w : Ray5Client.world) (n : nat) (s : t) : t :=
  match nth_error (timers s) n with
  | None => s
  | Some (_, cb) => run_callback w cb (set_timers (remove_nth n (timers s)) s)
  end.

(** The started thread at position [n] runs to its end. *)
Definition join (w : Ray5Client.world) (n : nat) (s : t) : t :=
  match nth_error (threads s) n with
  | None => s
  | Some wk => run_worker w wk (set_threads (remove_nth n (threads s)) s)
  end.

(** [Ray5App(root)] before the configuration is looked at: the fields
    [__init__] and [setup_ui] set. *)
Definition new : t :=
  {| running := true;
     connected := false;
     client := Ray5Client.new "192.168.1.101";
     current_mac := "Unknown";
     config_json := None;
     ip_var := "192.168.1.101";
     ip_entry_enabled := true;
     btn_connect := "Connect / Scan";
     status_label := "Disconnected";
     dot := Gray;
     tree := [];
     next_iid := 1;
     timers := [];
     threads := [];
     trace := [] |}.

(** [Ray5App(root)], with [stored] what [load_config] finds in
    [config.json] ([None]: no file, or one that does not parse).  A stored
    address that is a non-empty string is taken over and connected to. *)
Definition startup (w : Ray5Client.world) (stored : option json) : t :=
  let s := set_config_json stored new in
  let s :=
    match stored with
    | Some (JObj fields) =>
        match dict_get "last_ip" fields with
        | Some (JStr EmptyString) => s
        | Some (JStr last_ip) => connect w (set_ip_var last_ip s)
        | _ => s
        end
    | _ => s
    end in
  start_keepalive s.

(** The rows that carry a change marker: those with a tag. *)
Definition marked (s : t) : list item :=
  filter (fun it => match tags it with [] => false | _ => true end) (tree s).

Definition tags_of (i : nat) (s : t) : option (list tag) :=
  option_map tags (find (fun it => (iid it =? i)%nat) (tree s)).

(** The paths [handle_drop] reads from the data of a drop event: with a
    brace in the data, the brace groups first and then the words outside
    them; without one, the words. *)
Definition drop_paths (data : string) : list string :=
  if contains "{" data then
    (findall_braces data ++ split (sub_braces data))%list
  else split data.

(** [handle_drop(event)], with [event.data]. *)
Definition handle_drop (data : string) (s : t) : t :=
  if negb (connected s) then logging WARNING "Drop ignored: Not connected" s
  else
    match drop_paths data with
    | [] => s
    | paths => perform_upload paths s
    end.

(** The loop of the thread of [delete]; the flag tells whether the loop
    reached its end ([false]: the [return] taken when closing). *)
Fixpoint delete_loop (w : Ray5Client.world) (filenames : list string) (s : t)
  : bool * t :=
  match filenames with
  | [] => (true, s)
  | filename :: rest =>
      if negb (running s) then (false, s)
      else
        let (res, evs) := Ray5Client.delete_file w (client s) filename in
        let s := emit evs s in
        let s :=
          if contains "failed" (lower res) || contains "error" (lower res) then
            logging ERROR ("Failed to delete " ++ filename ++ ": " ++ res) s
          else s in
        delete_loop w rest s
  end.

(** The thread of [delete]. *)
Definition delete_task (w : Ray5Client.world) (filenames : list string) (s : t) : t :=
  match delete_loop w filenames s with
  | (true, s) => if running s then after 0 (RefreshList None) s else s
  | (false, s) => s
  end.

(** [delete], with the file names read from the selected rows and the
    answer of the confirmation dialog.  The thread it starts has no
    constructor in [worker]; its file names are returned beside the state. *)
Definition delete (filenames : list string) (confirmed : bool) (s : t)
  : t * option (list string) :=
  if negb (connected s) || negb (running s) then (s, None)
  else
    match filenames with
    | [] => (s, None)
    | _ => if confirmed then (s, Some filenames) else (s, None)
    end.

End Ray5App.

(** ** Worlds and listings used in the examples *)
Module Fixture.
Import Py Ray5Client.

(** A reply whose body is plain text, not JSON. *)
Definition plain (status : Z) (body : string) : reply :=
  {| status_code := status;
     text := body;
     loads := Raise "Expecting value: line 1 column 1 (char 0)" |}.

Definition entry (nm : string) (sz : Z) : json :=
  JObj [("name", JStr nm); ("size", JNum sz)].

(** A reply of the listing endpoint. *)
Definition listing (entries : list json) : reply :=
  {| status_code := 200;
     text := "{files}";
     loads := Return (JObj [("files", JArr entries)]) |}.

(** A device at 192.168.1.101 that answers the identity query with
    [identity] and the listing query with [files]; on the local disk
    [cut] is a directory, [missing.nc] does not exist, [b.nc] uploads
    with status 507 and every other file with status 200. *)
Definition laser (identity : string) (files : outcome reply) : world :=
  {| http := fun req =>
       match req with
       | GET url =>
           if (url =? "http://192.168.1.101:8848/command?plain=%5BESP420%5D")%string
           then Return (plain 200 identity)
           else if (url =? "http://192.168.1.101:8848/command?plain=%5BESP400%5D")%string
           then Return (plain 200 "ok")
           else if (url =? "http://192.168.1.101:8848/files?path=/")%string
           then files
           else Raise "timed out"
       | POST _ filename _ =>
           if (filename =? "b.nc")%string then Return (plain 507 "full")
           else Return (plain 200 "ok")
       end;
     isdir := fun p => (p =? "cut")%string;
     getsize := fun p =>
       if (p =? "missing.nc")%string
       then Raise "[Errno 2] No such file or directory: 'missing.nc'"
       else Return 120%Z;
     open_rb := fun _ => Return tt;
     open_w := fun _ => Return tt;
     inet_aton := fun a => (a =? "192.168.1.101")%string |}.

Definition upper_identity : string := "FW version 1.2 # STA (AA:BB:CC:DD:EE:FF)".
Definition lower_identity : string := "FW version 1.2 # STA (aa:bb:cc:dd:ee:ff)".

Definition two_files : outcome reply :=
  Return (listing [entry "a.nc" 120; entry "b.nc" 340]).

Definition no_files : outcome reply := Return (listing []).

Definition timeout : outcome reply := Raise "timed out".

Definition device : Ray5Client.t := Ray5Client.new "192.168.1.101".

End Fixture.

(** ** When a listing query counts as failed

    The request raised, the status is not 200, or the body is not a JSON
    object. *)
Definition query_failed (o : Py.outcome Ray5Client.reply) : bool :=
  match o with
  | Py.Raise _ => true
  | Py.Return r =>
      negb (Ray5Client.status_code r =? 200)%Z
      || match Ray5Client.loads r with
         | Py.Return (Py.JObj _) => false
         | _ => true
         end
  end.

(** The identity query sent to the address [ip]. *)
Definition handshake (ip : string) : request :=
  Ray5Client.command_request (Ray5Client.new ip) "[ESP420]".

(** The rows [populate_tree] appends for the entries of a listing when the
    next free identifier is [i]: one row per object up to the first entry
    that is not one, tagged with a fresh fifteen-second fade exactly when its
    name is among [new_filenames]. *)
Fixpoint rows_from (i : nat) (entries : list Py.json)
                   (new_filenames : option (list string)) : list Ray5App.item :=
  match entries with
  | Py.JObj fields :: rest =>
      let nm := Ray5App.get_or_none "name" fields in
      {| Ray5App.iid := i;
         Ray5App.name := nm;
         Ray5App.size := Ray5App.get_or_none "size" fields;
         Ray5App.tags :=
           if Ray5App.is_new nm new_filenames then [Ray5App.Fade i 15] else [] |}
      :: rows_from (S i) rest new_filenames
  | _ => []
  end.

(** The countdown callbacks registered for those rows. *)
Definition countdowns (rows : list Ray5App.item) : list (Z * Ray5App.callback) :=
  flat_map (fun it =>
              match Ray5App.tags it with
              | [] => []
              | _ => [(1000%Z, Ray5App.FadeItem (Ray5App.iid it) 14)]
              end)
           rows.

(** Identifiers in use are below the counter of the tree. *)
Definition ids_below (s : Ray5App.t) : Prop :=
  Forall (fun it => Ray5App.iid it < Ray5App.next_iid s) (Ray5App.tree s).

(** The paths of a batch that count as uploaded: not a directory, and the
    result of [upload_file] has "successful" in it. *)
Definition counts_as_uploaded (w : Ray5Client.world) (c : Ray5Client.t)
                              (path : string) : bool :=
  negb (Ray5Client.isdir w path)
  && match fst (Ray5Client.upload_file w c path "/") with
     | Py.Return res => Py.contains "successful" (Py.lower res)
     | Py.Raise _ => false
     end.

(** Every path of the batch that is not a directory has a size that can be
    read. *)
Definition all_sized (w : Ray5Client.world) (paths : list string) : Prop :=
  forall p,
    In p paths -> Ray5Client.isdir w p = false ->
    exists sz, Ray5Client.getsize w p = Py.Return sz.

(** The status query of the keepalive loop. *)
Definition heartbeat (c : Ray5Client.t) : request :=
  Ray5Client.command_request c "[ESP400]".



(** Every character of [s] passes the test [p]. *)
Fixpoint all_chars (p : ascii -> bool) (s : string) : bool :=
  match s with
  | EmptyString => true
  | String c rest => p c && all_chars p rest
  end.


(** A path as a drop event writes it: as it is, or between braces. *)
Inductive dropped : Type :=
| Bare (path : string)
| Braced (path : string).


(** What a written path leaves outside the braces. *)
Definition outside (d : dropped) : string :=
  match d with
  | Bare path => path
  | Braced _ => EmptyString
  end.




(** Did the device accept the deletion of [filename]? *)
Definition delete_ok (w : Ray5Client.world) (c : Ray5Client.t) (filename : string) : bool :=
  match Ray5Client.http w (Ray5Client.delete_request c filename) with
  | Py.Return r => (Ray5Client.status_code r =? 200)%Z
  | Py.Raise _ => false
  end.

(** The error record the delete batch writes for a name. *)
Definition is_batch_error (e : event) : bool :=
  match e with
  | Log ERROR msg => prefix "Failed to delete " msg
  | _ => false
  end.

(** What can happen to the application: the buttons, a drop, the window
    being closed, the main loop running the pending callback at a position,
    a started thread running to its end, the thread of [delete] running to
    its end. *)
Inductive action : Type :=
| Connect
| Disconnect
| Toggle
| Close
| Refresh
| Upload (chosen : list string)
| Drop (data : string)
| Fire (n : nat)
| Join (n : nat)
| Deleted (filenames : list string).

Definition act (w : Ray5Client.world) (a : action) (s : Ray5App.t) : Ray5App.t :=
  match a with
  | Connect => Ray5App.connect w s
  | Disconnect => Ray5App.disconnect s
  | Toggle => Ray5App.toggle_connect w s
  | Close => Ray5App.on_closing s
  | Refresh => Ray5App.refresh_list None s
  | Upload chosen => Ray5App.upload chosen s
  | Drop data => Ray5App.handle_drop data s
  | Fire n => Ray5App.fire w n s
  | Join n => Ray5App.join w n s
  | Deleted filenames => Ray5App.delete_task w filenames s
  end.

(** [s'] shows what [s] shows: the connection flag, the rows and their
    counter, the widgets and the running flag are the same. *)
Definition same_window (s s' : Ray5App.t) : Prop :=
  Ray5App.running s' = Ray5App.running s
  /\ Ray5App.connected s' = Ray5App.connected s
  /\ Ray5App.tree s' = Ray5App.tree s
  /\ Ray5App.next_iid s' = Ray5App.next_iid s
  /\ Ray5App.status_label s' = Ray5App.status_label s
  /\ Ray5App.btn_connect s' = Ray5App.btn_connect s
  /\ Ray5App.ip_entry_enabled s' = Ray5App.ip_entry_enabled s
  /\ Ray5App.ip_var s' = Ray5App.ip_var s
  /\ Ray5App.dot s' = Ray5App.dot s.

(** [s'] is the session of [s]: the window, and the client, the identity
    and the stored configuration besides. *)
Definition same_session (s s' : Ray5App.t) : Prop :=
  same_window s s'
  /\ Ray5App.client s' = Ray5App.client s
  /\ Ray5App.current_mac s' = Ray5App.current_mac s
  /\ Ray5App.config_json s' = Ray5App.config_json s.

(** A run: each step with the world it meets. *)
Fixpoint run (steps : list (Ray5Client.world * action)) (s : Ray5App.t) : Ray5App.t :=
  match steps with
  | [] => s
  | (w, a) :: rest => run rest (act w a s)
  end.

(** The fill of the dot [k] callbacks after a heartbeat, and the callback
    then pending for it. *)
Definition pulse_after (k : nat) : Ray5App.dot_fill :=
  if (k <? 10)%nat then Ray5App.Shade (10 - Z.of_nat k) else Ray5App.DarkGreen.

Definition pulse_pending (k : nat) : list (Z * Ray5App.callback) :=
  if (k <? 10)%nat then [(50%Z, Ray5App.FadeDot (9 - Z.of_nat k))] else [].

(** ** Runs of the application used in the examples *)
Module Scenario.
Import Py Ray5App.

(** The device answers the handshake and lists [a.nc] and [b.nc]. *)
Definition online : Ray5Client.world :=
  Fixture.laser Fixture.upper_identity Fixture.two_files.

(** The same device when the listing query times out. *)
Definition flaky : Ray5Client.world :=
  Fixture.laser Fixture.upper_identity Fixture.timeout.

(** The same device with nothing stored on it. *)
Definition blank : Ray5Client.world :=
  Fixture.laser Fixture.upper_identity Fixture.no_files.

(** Connect, let the handshake thread end, run its callback, let the first
    refresh end and run its callback: Connected, showing the two files. *)
Definition connected_app : Ray5App.t :=
  fire online 0 (join online 0 (fire online 0 (join online 0 (connect online new)))).

(** From there, upload the directory [cut] and the file [/x/a.nc]: the
    thread ends, both its callbacks run, the refresh it asked for ends and
    the tree is filled again.  [a.nc] now carries a marker. *)
Definition uploaded_app : Ray5App.t :=
  fire online 0
    (join online 0
       (fire online 0
          (fire online 0
             (join online 0 (perform_upload ["cut"; "/x/a.nc"] connected_app))))).

(** Two seconds later. *)
Definition faded_app : Ray5App.t := fire online 0 (fire online 0 uploaded_app).

(** What the tree shows: names with their tags. *)
Definition shown (s : Ray5App.t) : list (json * list tag) :=
  map (fun it => (name it, tags it)) (tree s).

End Scenario.

(** A device that deletes [a.nc], answers 404 for [b.nc] and does not
    answer for anything else. *)
Definition eraser : Ray5Client.world :=
  {| Ray5Client.http := fun req =>
       match req with
       | GET url =>
           if (url =? "http://192.168.1.101:8848/command?commandText=$SD/Delete=a.nc")%string
           then Py.Return (Fixture.plain 200 "ok")
           else if (url =? "http://192.168.1.101:8848/command?commandText=$SD/Delete=b.nc")%string
           then Py.Return (Fixture.plain 404 "Not Found")
           else Py.Raise "timed out"
       | POST _ _ _ => Py.Raise "timed out"
       end;
     Ray5Client.isdir := fun _ => false;
     Ray5Client.getsize := fun _ => Py.Return 120%Z;
     Ray5Client.open_rb := fun _ => Py.Return tt;
     Ray5Client.open_w := fun _ => Py.Return tt;
     Ray5Client.inet_aton := fun a => (a =? "192.168.1.101")%string |}.

(** * Properties *)

(** Reading a field through the setters. *)
Ltac fields :=
  cbn [Ray5App.running Ray5App.connected Ray5App.client Ray5App.current_mac
       Ray5App.config_json Ray5App.ip_var Ray5App.ip_entry_enabled
       Ray5App.btn_connect Ray5App.status_label Ray5App.dot Ray5App.tree
       Ray5App.next_iid Ray5App.timers Ray5App.threads Ray5App.trace
       Ray5App.set_running Ray5App.set_connected Ray5App.set_client
       Ray5App.set_current_mac Ray5App.set_config_json Ray5App.set_ip_var
       Ray5App.set_ip_entry_enabled Ray5App.set_btn_connect
       Ray5App.set_status_label Ray5App.set_dot Ray5App.set_tree
       Ray5App.set_next_iid Ray5App.set_timers Ray5App.set_threads
       Ray5App.set_trace Ray5App.after Ray5App.spawn Ray5App.emit
       Ray5App.logging Ray5App.set_item_tags negb].

Example quote_esp420 : Py.quote "[ESP420]" = "%5BESP420%5D".
Proof. reflexivity. Qed.

Example basename_nested : Py.basename "/home/u/cut/a.nc" = "a.nc".
Proof. reflexivity. Qed.

Example search_sta_upper :
  Py.search_sta Fixture.upper_identity = Some "AA:BB:CC:DD:EE:FF".
Proof. reflexivity. Qed.

Example search_sta_lower : Py.search_sta Fixture.lower_identity = None.
Proof. reflexivity. Qed.

(** ** Ray5Client *)
Section Client.
Import Py Ray5Client.
Variable w : world.
Variable self : Ray5Client.t.

Lemma get_files_failed (path : string) :
  query_failed (http w (files_request self path)) = true ->
  fst (get_files w self path) = JArr []
  /\ existsb is_error (snd (get_files w self path)) = true.
Proof.
  unfold query_failed, get_files.
  destruct (http w (files_request self path)) as [r|e]; [|now split].
  destruct (status_code r =? 200)%Z; simpl; [|now split].
  destruct (loads r) as [[]|]; simpl; intros H; try discriminate; now split.
Qed.

(** [upload_file] raises exactly when [os.path.getsize] does. *)
Lemma upload_file_raises (local_path remote_path e : string) :
  fst (upload_file w self local_path remote_path) = Raise e
  <-> getsize w local_path = Raise e.
Proof.
  unfold upload_file.
  destruct (getsize w local_path) as [sz|e']; simpl.
  - destruct (open_rb w local_path); simpl.
    + destruct (http w _) as [r|]; simpl.
      * destruct (status_code r =? 200)%Z; simpl; split; discriminate.
      * split; discriminate.
    + split; discriminate.
  - split; intros H; inversion H; reflexivity.
Qed.

(** When it returns, the result is the success string exactly when the
    file opened and the POST came back with status 200. *)
Lemma upload_file_success (local_path remote_path : string) :
  fst (upload_file w self local_path remote_path) = Return "Upload successful"
  <-> exists sz r,
        getsize w local_path = Return sz
        /\ open_rb w local_path = Return tt
        /\ http w (upload_request self remote_path (basename local_path) sz) = Return r
        /\ status_code r = 200%Z.
Proof.
  unfold upload_file.
  destruct (getsize w local_path) as [sz|e']; simpl.
  - destruct (open_rb w local_path) as [[]|]; simpl.
    + destruct (http w _) as [r|] eqn:Hp; simpl.
      * destruct (status_code r =? 200)%Z eqn:Hs; simpl; split.
        -- intros _. exists sz, r. repeat split; auto. now apply Z.eqb_eq.
        -- reflexivity.
        -- discriminate.
        -- intros (sz' & r' & H1 & _ & H3 & H4).
           inversion H1; subst sz'. rewrite Hp in H3. inversion H3; subst r'.
           apply Z.eqb_eq in H4. congruence.
      * split; [discriminate|].
        intros (sz' & r' & H1 & _ & H3 & _). inversion H1; subst sz'.
        rewrite Hp in H3. discriminate.
    + split; [discriminate|]. intros (? & ? & _ & H & _). discriminate.
  - split; [discriminate|]. intros (? & ? & H & _). discriminate.
Qed.

End Client.

(** ** Ray5App: the identity handshake *)
Section Handshake.
Import Py Ray5Client Ray5App.
Variable w : world.

Lemma running_save_config (mac ip : string) (s : Ray5App.t) :
  running (save_config w mac ip s) = running s.
Proof. unfold save_config. now destruct (open_w w "config.json"). Qed.

(** [connect_resume] on a body with the firmware marker. *)
Lemma connect_resume_marker (ip info : string) (s : Ray5App.t) :
  running s = true ->
  contains "FW version" info = true ->
  connect_resume w ip info s =
    after 0 (OnConnected ip (mac_of info))
      (logging INFO ("Connected to " ++ ip ++ " (MAC: " ++ mac_of info ++ ")")
         (save_config w (mac_of info) ip
            (set_current_mac (mac_of info) (set_client (Ray5Client.new ip) s)))).
Proof.
  intros Hrun Hfw. unfold connect_resume. rewrite Hrun, Hfw. fields.
  rewrite running_save_config. fields. rewrite ?Hrun. reflexivity.
Qed.

(** [connect_resume] on a body without the firmware marker. *)
Lemma connect_resume_no_marker (ip info : string) (s : Ray5App.t) :
  running s = true ->
  contains "FW version" info = false ->
  connect_resume w ip info s =
    after 0 ConnectionFailed
      (logging ERROR ("Could not connect to laser at " ++ ip ++ ". Response: " ++ info) s).
Proof.
  intros Hrun Hfw. unfold connect_resume. rewrite Hrun, Hfw. fields.
  rewrite ?Hrun. reflexivity.
Qed.

Lemma connect_task_resume (ip : string) (s : Ray5App.t) :
  connect_task w ip s =
    connect_resume w ip (fst (send_command w (Ray5Client.new ip) "[ESP420]"))
      (emit (snd (send_command w (Ray5Client.new ip) "[ESP420]")) s).
Proof.
  unfold connect_task. now destruct (send_command w (Ray5Client.new ip) "[ESP420]").
Qed.

Lemma send_command_returned (c : Ray5Client.t) (cmd : string) (r : reply) :
  http w (command_request c cmd) = Return r ->
  send_command w c cmd = (text r, [Net (command_request c cmd)]).
Proof. intros H. unfold send_command. now rewrite H. Qed.

(** The thread of [connect] on a body with the firmware marker. *)
Lemma connect_task_marker (ip : string) (r : reply) (s : Ray5App.t) :
  running s = true ->
  http w (handshake ip) = Return r ->
  contains "FW version" (text r) = true ->
  connect_task w ip s =
    after 0 (OnConnected ip (mac_of (text r)))
      (logging INFO
         ("Connected to " ++ ip ++ " (MAC: " ++ mac_of (text r) ++ ")")
         (save_config w (mac_of (text r)) ip
            (set_current_mac (mac_of (text r))
               (set_client (Ray5Client.new ip) (emit [Net (handshake ip)] s))))).
Proof.
  intros Hrun Hget Hfw.
  rewrite connect_task_resume, (send_command_returned _ _ _ Hget). cbn [fst snd].
  now apply connect_resume_marker.
Qed.


Lemma on_connected_running (ip mac : string) (s : Ray5App.t) :
  running s = true ->
  on_connected ip mac s =
    spawn (RefreshTask None)
      (set_tree []
         (set_status_label
            ("Connected: " ++ Ray5Client.ip (client s) ++ " (" ++ current_mac s ++ ")")
            (set_btn_connect "Disconnect"
               (set_ip_entry_enabled false (set_connected true s))))).
Proof.
  intros Hrun. unfold on_connected, update_status_text, refresh_list. fields.
  rewrite Hrun. reflexivity.
Qed.

Lemma config_saved (mac ip : string) (s : Ray5App.t) :
  open_w w "config.json" = Return tt ->
  save_config w mac ip s = set_config_json (Some (config_of mac ip)) s.
Proof. intros H. unfold save_config. now rewrite H. Qed.

Lemma config_kept_or_saved (mac ip : string) (s : Ray5App.t) :
  connected (save_config w mac ip s) = connected s
  /\ current_mac (save_config w mac ip s) = current_mac s
  /\ client (save_config w mac ip s) = client s
  /\ timers (save_config w mac ip s) = timers s.
Proof. unfold save_config. now destruct (open_w w "config.json"). Qed.


(** C10: a body with the firmware marker in which the pattern finds no
    address still connects, under the identity "Unknown", which is what the
    configuration then holds. *)
Theorem connect_unknown_identity (ip : string) (r : reply) (s : Ray5App.t) :
  running s = true ->
  http w (handshake ip) = Return r ->
  contains "FW version" (text r) = true ->
  search_sta (text r) = None ->
  let s1 := connect_task w ip s in
  let s2 := run_callback w (OnConnected ip "Unknown") s1 in
  timers s1 = (timers s ++ [(0%Z, OnConnected ip "Unknown")])%list
  /\ connected s2 = true
  /\ current_mac s2 = "Unknown"
  /\ (open_w w "config.json" = Return tt ->
      config_json s2 = Some (config_of "Unknown" ip)).
Proof.
  intros Hrun Hget Hfw Hsta s1 s2. subst s1 s2.
  rewrite (connect_task_marker ip r s Hrun Hget Hfw).
  unfold mac_of. rewrite Hsta.
  unfold run_callback. fields.
  rewrite running_save_config. fields. rewrite Hrun.
  rewrite on_connected_running by (fields; rewrite running_save_config; exact Hrun).
  fields.
  destruct (config_kept_or_saved "Unknown" ip
              (set_current_mac "Unknown"
                 (set_client (Ray5Client.new ip) (emit [Net (handshake ip)] s))))
    as (_ & Hmac & _ & Htm).
  rewrite Htm, Hmac. fields. repeat split.
  intros Hcfg. now rewrite (config_saved _ _ _ Hcfg).
Qed.

End Handshake.


(** The same device reporting its address in lower-case hexadecimal. *)
Lemma connect_unknown_identity_scenario :
  let w := Fixture.laser Fixture.lower_identity Fixture.two_files in
  let s := Ray5App.connect w Ray5App.new in
  let s1 := Ray5App.connect_task w "192.168.1.101" s in
  let s2 := Ray5App.run_callback w (Ray5App.OnConnected "192.168.1.101" "Unknown") s1 in
  Py.contains "FW version" Fixture.lower_identity = true
  /\ Py.search_sta Fixture.lower_identity = None
  /\ Ray5App.connected s2 = true
  /\ Ray5App.current_mac s2 = "Unknown"
  /\ Ray5App.config_json s2 = Some (Ray5App.config_of "Unknown" "192.168.1.101").
Proof.
  intros w s s1 s2.
  destruct (connect_unknown_identity w "192.168.1.101"
              (Fixture.plain 200 Fixture.lower_identity) s
              eq_refl eq_refl eq_refl eq_refl) as (_ & Hc & Hm & Hcfg).
  split; [reflexivity|]. split; [reflexivity|].
  split; [exact Hc|]. split; [exact Hm | exact (Hcfg eq_refl)].
Defined.

(** ** The [after] queue *)
Section Queue.
Import Py Ray5Client Ray5App.
Variable w : world.

Lemma nth_error_snoc {A : Type} (l : list A) (x : A) :
  nth_error (l ++ [x]) (length l) = Some x.
Proof. induction l; simpl; auto. Qed.

Lemma remove_nth_snoc {A : Type} (l : list A) (x : A) :
  remove_nth (length l) (l ++ [x]) = l.
Proof.
  unfold remove_nth. induction l as [|a l IH]; simpl; [reflexivity|].
  simpl in IH. now rewrite IH.
Qed.

(** Firing the callback registered last. *)
Lemma fire_last (pending : list (Z * callback)) (ms : Z) (cb : callback) (s : Ray5App.t) :
  timers s = (pending ++ [(ms, cb)])%list ->
  fire w (length pending) s = run_callback w cb (set_timers pending s).
Proof.
  intros H. unfold fire. now rewrite H, nth_error_snoc, remove_nth_snoc.
Qed.

(** Once the application is closing no callback changes anything. *)
Lemma run_callback_closing (cb : callback) (s : Ray5App.t) :
  running s = false -> run_callback w cb s = s.
Proof.
  intros H. destruct cb; simpl; rewrite ?H; try reflexivity.
  unfold check. now rewrite H.
Qed.

End Queue.

(** ** Results that arrive after [disconnect] *)
Section Disconnect.
Import Py Ray5Client Ray5App.
Variable w : world.

Lemma refresh_task_running (nf : option (list string)) (s : Ray5App.t) :
  running s = true ->
  refresh_task w nf s =
    after 0 (PopulateTree (fst (get_files w (client s) "/")) nf)
      (emit (snd (get_files w (client s) "/")) s).
Proof.
  intros H. unfold refresh_task. destruct (get_files w (client s) "/") as [files evs].
  fields. now rewrite H.
Qed.



End Disconnect.


(** ** Filling the tree *)
Section Populate.
Import Py Ray5Client Ray5App.
Variable w : world.
Variable nf : option (list string).

Lemma retag_below (i : nat) (tgs : list tag) (rows : list item) :
  Forall (fun it => iid it < i) rows ->
  map (retag i tgs) rows = rows.
Proof.
  induction 1 as [|it rows Hlt _ IH]; simpl; [reflexivity|].
  rewrite IH. unfold retag. destruct (Nat.eqb_spec (iid it) i); [lia | reflexivity].
Qed.

Lemma tree_exists_absent (i : nat) (s : Ray5App.t) :
  Forall (fun it => iid it <> i) (tree s) -> tree_exists i s = false.
Proof.
  unfold tree_exists. induction 1 as [|it rows Hne _ IH]; simpl; [reflexivity|].
  rewrite IH. now destruct (Nat.eqb_spec (iid it) i).
Qed.

(** A countdown whose row is gone does nothing. *)
Lemma fade_item_absent (i : nat) (n : Z) (s : Ray5App.t) :
  tree_exists i s = false -> fade_item i n s = s.
Proof. intros H. unfold fade_item. rewrite H. now rewrite orb_true_r. Qed.

(** One turn of the loop of [populate_tree]. *)
Lemma populate_row (fields : list (string * json)) (s : Ray5App.t) :
  running s = true ->
  ids_below s ->
  let nm := get_or_none "name" fields in
  let row := {| iid := next_iid s; name := nm; size := get_or_none "size" fields;
                tags := if is_new nm nf then [Fade (next_iid s) 15] else [] |} in
  let s' := populate_rows [JObj fields] nf s in
  tree s' = (tree s ++ [row])%list
  /\ timers s' = (timers s ++ countdowns [row])%list
  /\ next_iid s' = S (next_iid s)
  /\ running s' = true.
Proof.
  intros Hrun Hids nm row s'. subst s'. cbn [populate_rows tree_insert]. fold nm.
  destruct (is_new nm nf) eqn:Hnew.
  - unfold fade_item. fields. rewrite Hrun. cbn [negb orb].
    unfold tree_exists. fields.
    rewrite !map_app, !(retag_below _ _ _ Hids), existsb_app.
    cbn [map existsb]. unfold retag. cbn [iid]. rewrite ?Nat.eqb_refl. cbn [iid orb].
    rewrite ?Nat.eqb_refl, orb_true_r. cbn [negb].
    change (15 <=? 0)%Z with false. change (15 - 1)%Z with 14%Z. cbn iota.
    fields. rewrite !map_app, !(retag_below _ _ _ Hids).
    cbn [map]. unfold retag. cbn [iid]. rewrite ?Nat.eqb_refl. cbn [iid name size].
    rewrite ?Nat.eqb_refl.
    subst row. cbn [countdowns flat_map tags iid]. rewrite app_nil_r.
    repeat split; assumption.
  - fields. subst row. cbn [countdowns flat_map tags iid].
    rewrite app_nil_r. repeat split; assumption.
Qed.

Lemma populate_rows_cons (e : json) (rest : list json) (s : Ray5App.t) :
  populate_rows (e :: rest) nf s =
    match e with
    | JObj _ => populate_rows rest nf (populate_rows [e] nf s)
    | _ => s
    end.
Proof.
  destruct e; reflexivity.
Qed.

(** The loop of [populate_tree] in closed form. *)
Lemma populate_rows_closed (entries : list json) (s : Ray5App.t) :
  running s = true ->
  ids_below s ->
  let s' := populate_rows entries nf s in
  tree s' = (tree s ++ rows_from (next_iid s) entries nf)%list
  /\ timers s' = (timers s ++ countdowns (rows_from (next_iid s) entries nf))%list
  /\ running s' = true
  /\ ids_below s'.
Proof.
  revert s. induction entries as [|e rest IH]; intros s Hrun Hids; cbn zeta.
  - cbn. rewrite !app_nil_r. auto.
  - rewrite populate_rows_cons. destruct e; cbn [rows_from]; cbn [countdowns flat_map];
      rewrite ?app_nil_r; auto.
    destruct (populate_row fields s Hrun Hids) as (Ht & Hq & Hn & Hr).
    set (s1 := populate_rows [JObj fields] nf s) in *.
    assert (Hids1 : ids_below s1).
    { unfold ids_below. rewrite Ht, Hn. apply Forall_app. split.
      - eapply Forall_impl; [|exact Hids]. cbn. intros; lia.
      - constructor; [cbn; lia | constructor]. }
    destruct (IH s1 Hr Hids1) as (Ht' & Hq' & Hr' & Hids').
    rewrite Ht', Hq', Ht, Hq, Hn, <- !app_assoc.
    repeat split; auto.
    unfold countdowns. cbn [flat_map]. now rewrite app_nil_r.
Qed.

(** Every row made for a listing has a fresh identifier and carries a marker
    exactly when its name is among the new file names. *)
Lemma rows_from_spec (entries : list json) (i : nat) (it : item) :
  In it (rows_from i entries nf) ->
  i <= iid it
  /\ tags it = if is_new (name it) nf then [Fade (iid it) 15] else [].
Proof.
  revert i. induction entries as [|e rest IH]; intros i; [intros []|].
  destruct e; try (now intros []). cbn [rows_from]. intros [<- | Hin].
  - cbn. split; [lia | reflexivity].
  - destruct (IH _ Hin). split; [lia | assumption].
Qed.

End Populate.

(** ** Refreshing the catalog *)
Section Refresh.
Import Py Ray5Client Ray5App.
Variable w : world.
Variable nf : option (list string).

(** A refresh from its start to the moment its callback is next in line. *)
Lemma refresh_in_flight (s : Ray5App.t) :
  connected s = true ->
  running s = true ->
  let files := fst (get_files w (client s) "/") in
  let s2 := refresh_task w nf (refresh_list nf s) in
  timers s2 = (timers s ++ [(0%Z, PopulateTree files nf)])%list
  /\ trace s2 = (trace s ++ snd (get_files w (client s) "/"))%list
  /\ fire w (length (timers s)) s2 = populate_tree files nf (set_timers (timers s) s2)
  /\ tree s2 = []
  /\ next_iid s2 = next_iid s
  /\ running s2 = true.
Proof.
  intros Hcon Hrun files s2.
  assert (Hs2 : s2 = after 0 (PopulateTree files nf)
                       (emit (snd (get_files w (client s) "/"))
                          (spawn (RefreshTask nf) (set_tree [] s)))).
  { subst s2. unfold refresh_list. rewrite Hcon, Hrun. cbn [negb orb].
    now rewrite refresh_task_running. }
  assert (Htm : timers s2 = (timers s ++ [(0%Z, PopulateTree files nf)])%list)
    by now rewrite Hs2.
  repeat split; try (now rewrite Hs2).
  rewrite (fire_last w _ _ _ _ Htm). unfold run_callback. fields.
  replace (running s2) with true by (rewrite Hs2; fields; now rewrite Hrun).
  reflexivity.
Qed.

Lemma tags_of_absent (i : nat) (s : Ray5App.t) :
  Forall (fun it => iid it <> i) (tree s) -> tags_of i s = None.
Proof.
  unfold tags_of. induction 1 as [|it rows Hne _ IH]; simpl; [reflexivity|].
  now destruct (Nat.eqb_spec (iid it) i).
Qed.

(** C2, as the program has it: [refresh_list] empties the tree before the
    listing is asked for, and a failed query comes back as the empty list.
    So after a failed refresh of a Connected session the tree is empty,
    whatever it held, and the failure is in the log as an error. *)
Theorem failed_refresh_empties_tree (s : Ray5App.t) :
  connected s = true ->
  running s = true ->
  query_failed (http w (files_request (client s) "/")) = true ->
  let s1 := refresh_list nf s in
  let s2 := refresh_task w nf s1 in
  let s3 := fire w (length (timers s)) s2 in
  tree s1 = []
  /\ timers s2 = (timers s ++ [(0%Z, PopulateTree (JArr []) nf)])%list
  /\ (exists evs, trace s2 = (trace s ++ evs)%list /\ existsb is_error evs = true)
  /\ tree s3 = []
  /\ timers s3 = timers s.
Proof.
  intros Hcon Hrun Hfail s1 s2 s3.
  destruct (get_files_failed w (client s) "/" Hfail) as (Hfiles & Herr).
  destruct (refresh_in_flight s Hcon Hrun) as (Htm & Htr & Hfire & Htree & _ & _).
  fold s1 s2 in Htm, Htr, Hfire, Htree. rewrite Hfiles in Htm, Hfire.
  split; [subst s1; unfold refresh_list; now rewrite Hcon, Hrun|].
  split; [exact Htm|].
  split; [eexists; split; [exact Htr | exact Herr]|].
  subst s3. rewrite Hfire. cbn [populate_tree populate_rows]. fields.
  now split.
Qed.

(** C3, as the program has it: a refresh deletes every row and makes new
    ones under fresh identifiers, so no marker outlives it.  Afterwards the
    tree holds the listed entries in order; a row is marked, with a fresh
    count of fifteen, exactly when its name is among the file names just
    uploaded; every row of the old tree is gone and the countdowns still
    pending for them do nothing. *)
Theorem refresh_renews_markers (entries : list json) (s : Ray5App.t) :
  connected s = true ->
  running s = true ->
  ids_below s ->
  fst (get_files w (client s) "/") = JArr entries ->
  let s3 := fire w (length (timers s)) (refresh_task w nf (refresh_list nf s)) in
  tree s3 = rows_from (next_iid s) entries nf
  /\ timers s3 = (timers s ++ countdowns (tree s3))%list
  /\ (forall it, In it (tree s3) ->
        tags it = if is_new (name it) nf then [Fade (iid it) 15] else [])
  /\ (forall old n, In old (tree s) ->
        tags_of (iid old) s3 = None /\ fade_item (iid old) n s3 = s3).
Proof.
  intros Hcon Hrun Hids Hfiles s3.
  destruct (refresh_in_flight s Hcon Hrun) as (Htm & _ & Hfire & Htree & Hnext & Hrun2).
  rewrite Hfiles in Hfire. cbn [populate_tree] in Hfire.
  set (s2 := refresh_task w nf (refresh_list nf s)) in *.
  set (base := set_timers (timers s) s2) in *.
  assert (Hb : ids_below base).
  { unfold ids_below. subst base. fields. rewrite Htree. constructor. }
  destruct (populate_rows_closed nf entries base Hrun2 Hb) as (Ht & Hq & _ & _).
  assert (Htree3 : tree s3 = rows_from (next_iid s) entries nf).
  { subst s3. rewrite Hfire, Ht. subst base. fields. now rewrite Htree, Hnext. }
  split; [exact Htree3|].
  split.
  { rewrite Htree3. subst s3. rewrite Hfire, Hq. subst base. fields. now rewrite Hnext. }
  split.
  { intros it Hin. rewrite Htree3 in Hin.
    now destruct (rows_from_spec nf entries _ it Hin). }
  intros old n Hold.
  assert (Hfresh : Forall (fun it => iid it <> iid old) (tree s3)).
  { rewrite Htree3. apply Forall_forall. intros it Hin.
    destruct (rows_from_spec nf entries _ it Hin) as [Hle _].
    unfold ids_below in Hids. rewrite Forall_forall in Hids.
    specialize (Hids old Hold). lia. }
  split; [now apply tags_of_absent|].
  apply fade_item_absent. now apply tree_exists_absent.
Qed.

End Refresh.

(** ** The specification's claims against concrete runs *)
Section Runs.
Import Py Ray5Client Ray5App Scenario.

Example connected_app_shows_listing :
  connected connected_app = true
  /\ shown connected_app = [(JStr "a.nc", []); (JStr "b.nc", [])].
Proof. vm_compute. split; reflexivity. Qed.

Example uploaded_app_marks_upload :
  shown uploaded_app = [(JStr "a.nc", [Fade 3 15]); (JStr "b.nc", [])]
  /\ timers uploaded_app = [(1000%Z, FadeItem 3 14)].
Proof. vm_compute. split; reflexivity. Qed.

(** C2 at a concrete run: the session shows two files; the next listing
    query times out; the tree ends up empty. *)
Lemma failed_refresh_clears_catalog :
  let s' := fire flaky 0 (join flaky 0 (refresh_list None connected_app)) in
  connected connected_app = true
  /\ shown connected_app = [(JStr "a.nc", []); (JStr "b.nc", [])]
  /\ query_failed (http flaky (files_request (client connected_app) "/")) = true
  /\ connected s' = true
  /\ tree s' = [].
Proof. vm_compute. repeat split. Qed.

Lemma failed_refresh_empties_tree_witness :
  connected connected_app = true
  /\ running connected_app = true
  /\ query_failed (http flaky (files_request (client connected_app) "/")) = true
  /\ tree (fire flaky (length (timers connected_app))
             (refresh_task flaky None (refresh_list None connected_app))) = [].
Proof.
  destruct (failed_refresh_empties_tree flaky None connected_app
              eq_refl eq_refl eq_refl) as (_ & _ & _ & H & _).
  refine (conj eq_refl (conj eq_refl (conj eq_refl _))). exact H.
Defined.

(** C3 at a concrete run: [a.nc] carries a marker with thirteen seconds
    left; a refresh whose listing still has [a.nc] leaves it unmarked, and
    the countdown that was pending changes nothing afterwards. *)
Lemma refresh_drops_marker_of_listed_file :
  let s' := fire online 1 (join online 0 (refresh_list None faded_app)) in
  shown faded_app = [(JStr "a.nc", [Fade 3 13]); (JStr "b.nc", [])]
  /\ timers faded_app = [(1000%Z, FadeItem 3 12)]
  /\ fst (get_files online (client faded_app) "/")
     = JArr [Fixture.entry "a.nc" 120; Fixture.entry "b.nc" 340]
  /\ shown s' = [(JStr "a.nc", []); (JStr "b.nc", [])]
  /\ timers s' = [(1000%Z, FadeItem 3 12)]
  /\ fire online 0 s' = set_timers [] s'.
Proof. vm_compute. repeat split. Qed.

Lemma ids_below_faded_app : ids_below faded_app.
Proof. unfold ids_below. vm_compute. repeat constructor. Qed.

Lemma refresh_renews_markers_witness :
  connected faded_app = true
  /\ running faded_app = true
  /\ marked (fire online (length (timers faded_app))
               (refresh_task online (Some ["b.nc"])
                  (refresh_list (Some ["b.nc"]) faded_app)))
     = [{| iid := 6; name := JStr "b.nc"; size := JNum 340; tags := [Fade 6 15] |}].
Proof.
  destruct (refresh_renews_markers online (Some ["b.nc"])
              [Fixture.entry "a.nc" 120; Fixture.entry "b.nc" 340] faded_app
              eq_refl eq_refl ids_below_faded_app eq_refl) as (H & _).
  refine (conj eq_refl (conj eq_refl _)). unfold marked. rewrite H. reflexivity.
Defined.

(** C4 at a concrete input: a listing query answered with status 500 and
    one answered with an empty listing hand the caller the same value. *)
Lemma failed_listing_looks_empty :
  let broken := Fixture.laser Fixture.upper_identity
                  (Return (Fixture.plain 500 "Internal Server Error")) in
  query_failed (http broken (files_request Fixture.device "/")) = true
  /\ query_failed (http blank (files_request Fixture.device "/")) = false
  /\ fst (get_files broken Fixture.device "/") = JArr []
  /\ fst (get_files blank Fixture.device "/") = JArr [].
Proof. vm_compute. repeat split. Qed.

End Runs.

(** ** The listing and upload calls *)
Section Calls.
Import Py Ray5Client Ray5App Scenario.
Variable w : world.
Variable self : Ray5Client.t.

(** C4, as the program has it: when the listing query fails, [get_files]
    hands the caller the empty list, the value of a successful empty
    listing; the reason goes to the log as one error record and nowhere
    else. *)
Theorem failed_listing_is_empty_list (path : string) :
  query_failed (http w (files_request self path)) = true ->
  fst (get_files w self path) = JArr []
  /\ exists reason,
       snd (get_files w self path) = [Net (files_request self path); Log ERROR reason].
Proof.
  unfold query_failed, get_files.
  destruct (http w (files_request self path)) as [r|e].
  - destruct (status_code r =? 200)%Z; cbn [negb orb].
    + destruct (loads r) as [[]|]; intros H; try discriminate;
        (split; [reflexivity | eexists; reflexivity]).
    + intros _. split; [reflexivity | eexists; reflexivity].
  - intros _. split; [reflexivity | eexists; reflexivity].
Qed.

End Calls.

Lemma failed_listing_is_empty_list_witness :
  let broken := Fixture.laser Fixture.upper_identity
                  (Py.Return (Fixture.plain 500 "Internal Server Error")) in
  query_failed (Ray5Client.http broken (Ray5Client.files_request Fixture.device "/")) = true
  /\ fst (Ray5Client.get_files broken Fixture.device "/") = Py.JArr [].
Proof.
  intros broken.
  destruct (failed_listing_is_empty_list broken Fixture.device "/" eq_refl) as (H & _).
  exact (conj eq_refl H).
Defined.

(** C5 at the failing input: the local path does not exist, so
    [os.path.getsize] raises before the [try] block is entered and the
    exception leaves [upload_file]; nothing is sent and nothing is logged. *)
Theorem upload_file_missing_path_raises :
  Ray5Client.getsize Scenario.online "missing.nc"
    = Py.Raise "[Errno 2] No such file or directory: 'missing.nc'"
  /\ Ray5Client.upload_file Scenario.online Fixture.device "missing.nc" "/"
     = (Py.Raise "[Errno 2] No such file or directory: 'missing.nc'", []).
Proof. split; reflexivity. Qed.

(** C7 at the failing input: the first path of the batch does not exist.
    The exception of [upload_file] ends the thread: the second file is never
    sent and no refresh is asked for.  Without the missing path the same
    file is uploaded and the refresh is asked for with its name. *)
Theorem upload_batch_dies_on_missing_file :
  let s := Scenario.connected_app in
  let s' := Ray5App.upload_task Scenario.online ["missing.nc"; "/x/a.nc"] s in
  let good := Ray5App.upload_task Scenario.online ["/x/a.nc"] s in
  Ray5Client.isdir Scenario.online "missing.nc" = false
  /\ fst (Ray5App.upload_loop Scenario.online ["missing.nc"; "/x/a.nc"] [] s)
     = Py.Raise "[Errno 2] No such file or directory: 'missing.nc'"
  /\ s' = s
  /\ Ray5App.timers good
     = [(0%Z, Ray5App.UpdateStatusText); (0%Z, Ray5App.RefreshList (Some ["a.nc"]))]
  /\ filter is_net (skipn (length (Ray5App.trace s)) (Ray5App.trace good))
     = [Net (Ray5Client.upload_request Fixture.device "/" "a.nc" 120)].
Proof. vm_compute. repeat split. Qed.

(** ** The keepalive loop *)
Section Keepalive.
Import Py Ray5Client Ray5App.
Variable w : world.


(** A failed transport reads as an error marker. *)
Lemma send_command_raise_has_marker (c : Ray5Client.t) (cmd e : string) :
  http w (command_request c cmd) = Raise e ->
  contains "error" (lower (fst (send_command w c cmd))) = true.
Proof. intros H. unfold send_command. now rewrite H. Qed.

Lemma check_resume_running (res : string) (s : Ray5App.t) :
  running s = true ->
  check_resume res s =
    after 2000 Check
      (if contains "error" (lower res)
       then logging DEBUG "Keepalive check failed" s
       else after 0 FlashDot s).
Proof.
  intros H. unfold check_resume. rewrite H. cbn [negb].
  destruct (contains "error" (lower res)); fields; now rewrite H.
Qed.


End Keepalive.

Lemma keepalive_turn_connected :
  let s := Scenario.connected_app in
  let s' := Ray5App.check Scenario.online s in
  Ray5App.timers s' = [(0%Z, Ray5App.FlashDot); (2000%Z, Ray5App.Check)]
  /\ Ray5App.timers (Ray5App.check Scenario.online (Ray5App.disconnect s))
     = [(2000%Z, Ray5App.Check)]
  /\ Ray5App.timers (Ray5App.check Scenario.online (Ray5App.on_closing s)) = [].
Proof. vm_compute. repeat split. Qed.

(** ** The countdown of a marker *)
Section Countdown.
Import Py Ray5Client Ray5App.
Variable w : world.
Variable i : nat.



Lemma find_retag (tgs : list tag) (rows : list item) :
  existsb (fun it => (iid it =? i)%nat) rows = true ->
  option_map tags (find (fun it => (iid it =? i)%nat) (map (retag i tgs) rows))
  = Some tgs.
Proof.
  induction rows as [|it rows IH]; simpl; [discriminate|].
  unfold retag. destruct (iid it =? i)%nat eqn:E.
  - intros _. cbn [iid]. rewrite E. reflexivity.
  - rewrite E. cbn [orb]. exact IH.
Qed.

Lemma nth_error_end {A : Type} (l : list A) : nth_error l (length l) = None.
Proof. apply nth_error_None. lia. Qed.


(** One countdown callback on a row that is still in the tree, whatever
    happened since it was registered: with time left the row is retagged and
    the next callback registered a second ahead; with none the tags go. *)
Lemma fade_item_step (n : Z) (s : Ray5App.t) :
  running s = true ->
  tree_exists i s = true ->
  tags_of i (fade_item i n s) = Some (if (n <=? 0)%Z then [] else [Fade i n])
  /\ timers (fade_item i n s)
     = (timers s ++ if (n <=? 0)%Z then [] else [(1000%Z, FadeItem i (n - 1))])%list.
Proof.
  intros Hrun Hex. unfold fade_item. rewrite Hrun, Hex. cbn [negb orb].
  unfold tree_exists in Hex.
  destruct (n <=? 0)%Z; unfold tags_of; fields; rewrite (find_retag _ _ Hex);
    rewrite ?app_nil_r; auto.
Qed.


End Countdown.

Lemma fade_item_step_example :
  Ray5App.tags_of 3 (Ray5App.fade_item 3 14 Scenario.uploaded_app)
  = Some [Ray5App.Fade 3 14].
Proof.
  destruct (fade_item_step 3 14 Scenario.uploaded_app eq_refl eq_refl) as (H & _).
  exact H.
Defined.


(** ** The upload batch *)
Section Upload.
Import Py Ray5Client Ray5App.
Variable w : world.

(** On such a batch the loop reaches its end: directories are passed over, a
    failed upload does not stop the files after it, and the names gathered
    are the base names of the uploads that succeeded, in the order of the
    batch. *)
Lemma upload_loop_sized (paths : list string) :
  forall (names : list string) (s : Ray5App.t),
    running s = true ->
    all_sized w paths ->
    exists s',
      upload_loop w paths names s
      = (Return (Some (names ++ map basename
                                  (filter (counts_as_uploaded w (client s)) paths))%list),
         s')
      /\ running s' = true
      /\ client s' = client s
      /\ connected s' = connected s
      /\ timers s' = timers s
      /\ tree s' = tree s.
Proof.
  induction paths as [|p rest IH]; intros names s Hrun Hsized.
  - exists s. cbn [upload_loop filter map]. rewrite app_nil_r. repeat split; auto.
  - assert (Hrest : all_sized w rest) by (intros q Hq; apply Hsized; now right).
    cbn [upload_loop filter]. rewrite Hrun. cbn [negb].
    unfold counts_as_uploaded at 1.
    destruct (isdir w p) eqn:Hdir; cbn [negb andb].
    + apply IH; assumption.
    + destruct (Hsized p (or_introl eq_refl) Hdir) as [sz Hsz].
      destruct (upload_file w (client s) p "/") as [[res|e] evs] eqn:Hup; cbn [fst].
      * destruct (contains "successful" (lower res)).
        -- destruct (IH (names ++ [basename p])%list (emit evs s) Hrun Hrest)
             as (s' & Heq & Hs').
           exists s'. split; [|exact Hs'].
           rewrite Heq. cbn [map]. now rewrite <- app_assoc.
        -- destruct (IH names
                       (logging ERROR ("Failed to upload " ++ basename p ++ ": " ++ res)
                          (emit evs s)) Hrun Hrest) as (s' & Heq & Hs').
           exists s'. split; [exact Heq | exact Hs'].
      * assert (Hraise : fst (upload_file w (client s) p "/") = Raise e)
          by now rewrite Hup.
        apply upload_file_raises in Hraise. congruence.
Qed.

(** The thread of [perform_upload] on such a batch registers the status
    update and then the refresh, with the names gathered. *)
Lemma upload_task_sized (paths : list string) (s : Ray5App.t) :
  running s = true ->
  all_sized w paths ->
  timers (upload_task w paths s)
  = (timers s
       ++ [(0%Z, UpdateStatusText);
           (0%Z, RefreshList
                   (Some (map basename
                            (filter (counts_as_uploaded w (client s)) paths))))])%list.
Proof.
  intros Hrun Hsized.
  destruct (upload_loop_sized paths [] s Hrun Hsized) as (s' & Heq & Hr & _ & _ & Ht & _).
  unfold upload_task. rewrite Heq, Hr. fields. rewrite Ht, <- app_assoc. reflexivity.
Qed.

End Upload.

(** The batch of the scenario: a directory, a file that uploads, one the
    device refuses, and another that uploads. *)
Lemma upload_task_sized_example :
  Ray5App.timers
    (Ray5App.upload_task Scenario.online ["cut"; "/x/a.nc"; "b.nc"; "/y/c.nc"]
       Scenario.connected_app)
  = [(0%Z, Ray5App.UpdateStatusText);
     (0%Z, Ray5App.RefreshList (Some ["a.nc"; "c.nc"]))].
Proof.
  rewrite upload_task_sized; [reflexivity | reflexivity |].
  intros p Hin _. cbn in Hin.
  destruct Hin as [<-|[<-|[<-|[<-|[]]]]]; cbn; eauto.
Defined.

(** ** Starting up *)
Section Startup.
Import Py Ray5Client Ray5App.
Variable w : world.


End Startup.

(** With a stored address the application connects on its own, and the
    keepalive thread is started in any case. *)
Example startup_threads :
  Ray5App.threads
    (Ray5App.startup Scenario.online
       (Some (Ray5App.config_of "AA:BB:CC:DD:EE:FF" "192.168.1.101")))
  = [Ray5App.ConnectTask "192.168.1.101"; Ray5App.CheckTask]
  /\ Ray5App.threads (Ray5App.startup Scenario.online None) = [Ray5App.CheckTask].
Proof. split; reflexivity. Qed.

(** An unreadable file whose name has "successful" in it: the error text
    of [upload_file] carries the name, and the batch counts it as uploaded. *)
Example error_text_counts_as_uploaded :
  let w :=
    {| Ray5Client.http := Ray5Client.http Scenario.online;
       Ray5Client.isdir := fun _ => false;
       Ray5Client.getsize := fun _ => Py.Return 120%Z;
       Ray5Client.open_rb := fun _ =>
         Py.Raise "[Errno 13] Permission denied: 'successful.nc'";
       Ray5Client.open_w := fun _ => Py.Return tt;
       Ray5Client.inet_aton := fun _ => true |} in
  fst (Ray5Client.upload_file w Fixture.device "successful.nc" "/")
  = Py.Return "Upload error: [Errno 13] Permission denied: 'successful.nc'"
  /\ counts_as_uploaded w Fixture.device "successful.nc" = true.
Proof. split; reflexivity. Qed.

(** ** Strings *)
Section Strings.
Import Py.


Lemma append_assoc (a b c : string) : (a ++ b) ++ c = a ++ b ++ c.
Proof. induction a; simpl; congruence. Qed.

Lemma prefix_app (p t : string) : prefix p (p ++ t) = true.
Proof.
  induction p as [|c p IH]; simpl; [now destruct t|].
  destruct (ascii_dec c c); [exact IH | contradiction].
Qed.

Lemma prefix_split (p s : string) :
  prefix p s = true -> s = p ++ drop (String.length p) s.
Proof.
  revert s. induction p as [|c p IH]; intros [|d s]; simpl; try reflexivity;
    try discriminate.
  destruct (ascii_dec c d) as [->|]; [|discriminate].
  intros H. f_equal. now apply IH.
Qed.

Lemma contains_prefix (n s : string) : prefix n s = true -> contains n s = true.
Proof. destruct s; simpl; intros H; rewrite H; reflexivity. Qed.

Lemma contains_app (n a b : string) : contains n (a ++ n ++ b) = true.
Proof.
  induction a as [|c a IH]; simpl.
  - apply contains_prefix, prefix_app.
  - rewrite IH. apply orb_true_r.
Qed.

Lemma contains_split (n s : string) :
  contains n s = true -> exists a b, s = a ++ n ++ b.
Proof.
  induction s as [|c s IH].
  - intros H. change (prefix n "" = true) in H.
    apply prefix_split in H. exists "", (drop (String.length n) ""). exact H.
  - cbn [contains]. intros H. apply orb_true_iff in H. destruct H as [H|H].
    + apply prefix_split in H. exists "", (drop (String.length n) (String c s)). exact H.
    + destruct (IH H) as (a & b & ->). exists (String c a), b. reflexivity.
Qed.

Lemma all_chars_app (p : ascii -> bool) (a b : string) :
  all_chars p (a ++ b) = all_chars p a && all_chars p b.
Proof. induction a; simpl; [reflexivity|]. now rewrite IHa, andb_assoc. Qed.

End Strings.

(** ** The hardware address in the handshake body *)
Section Identity.
Import Py Ray5App.

Lemma span_mac_spec (s : string) :
  s = fst (span_mac s) ++ snd (span_mac s)
  /\ all_chars is_mac_char (fst (span_mac s)) = true.
Proof.
  induction s as [|c s [IH1 IH2]]; simpl; [auto|].
  destruct (is_mac_char c) eqn:E; [|auto].
  destruct (span_mac s) as [run tl]. cbn [fst snd append all_chars] in *.
  rewrite E. split; [f_equal; exact IH1 | exact IH2].
Qed.

Lemma span_mac_app (g t : string) :
  all_chars is_mac_char g = true ->
  span_mac (g ++ String ")" t) = (g, String ")" t).
Proof.
  intros Hg. induction g as [|c g IH]; simpl in *; [reflexivity|].
  apply andb_true_iff in Hg. destruct Hg as [Hc Hg]. rewrite Hc, (IH Hg). reflexivity.
Qed.

Lemma match_sta_spec (s g : string) :
  match_sta s = Some g ->
  g <> "" /\ all_chars is_mac_char g = true
  /\ exists post, s = "STA (" ++ g ++ ")" ++ post.
Proof.
  unfold match_sta. destruct (prefix "STA (" s) eqn:Hp; [|discriminate].
  apply prefix_split in Hp. cbn [String.length] in Hp.
  destruct (span_mac_spec (drop 5 s)) as [Hs Ha].
  destruct (span_mac (drop 5 s)) as [run tl]. cbn [fst snd] in *.
  destruct run as [|c run]; [discriminate|].
  destruct tl as [|d tl]; [discriminate|].
  destruct (Ascii.eqb_spec d ")") as [->|Hd].
  - intros H. injection H as <-. split; [discriminate|]. split; [exact Ha|].
    exists tl. rewrite Hp at 1. rewrite Hs. reflexivity.
  - destruct d as [[] [] [] [] [] [] [] []]; try discriminate. now elim Hd.
Qed.

Lemma match_sta_here (g post : string) :
  g <> "" ->
  all_chars is_mac_char g = true ->
  match_sta ("STA (" ++ g ++ ")" ++ post) = Some g.
Proof.
  intros Hne Hg. unfold match_sta. cbn [append prefix]. 
  repeat (destruct (ascii_dec _ _) as [_|Hx]; [|now elim Hx]).
  assert (Hp : prefix "" (g ++ String ")" post) = true) by now destruct (g ++ _).
  rewrite Hp. cbn [drop]. rewrite span_mac_app by exact Hg.
  destruct g; [now elim Hne | reflexivity].
Qed.

Lemma search_sta_spec (s g : string) :
  search_sta s = Some g ->
  g <> "" /\ all_chars is_mac_char g = true
  /\ exists pre post, s = pre ++ "STA (" ++ g ++ ")" ++ post.
Proof.
  induction s as [|c s IH].
  - cbn [search_sta]. destruct (match_sta "") eqn:E; [|discriminate].
    intros H. injection H as ->. destruct (match_sta_spec _ _ E) as (H1 & H2 & post & H3).
    split; [exact H1|]. split; [exact H2|]. exists "", post. exact H3.
  - cbn [search_sta]. destruct (match_sta (String c s)) eqn:E.
    + intros H. injection H as ->.
      destruct (match_sta_spec _ _ E) as (H1 & H2 & post & H3).
      split; [exact H1|]. split; [exact H2|]. exists "", post. exact H3.
    + intros H. destruct (IH H) as (H1 & H2 & pre & post & H3).
      split; [exact H1|]. split; [exact H2|]. exists (String c pre), post.
      rewrite H3. reflexivity.
Qed.

Lemma search_sta_finds (pre g post : string) :
  g <> "" ->
  all_chars is_mac_char g = true ->
  search_sta (pre ++ "STA (" ++ g ++ ")" ++ post) <> None.
Proof.
  intros Hne Hg. induction pre as [|c pre IH].
  - cbn [append]. change (String "S" (String "T" (String "A" (String " " (String "(" (g ++ String ")" post))))))
      with ("STA (" ++ g ++ ")" ++ post).
    pose proof (match_sta_here g post Hne Hg) as E.
    destruct ("STA (" ++ g ++ ")" ++ post); cbn [search_sta]; rewrite E; discriminate.
  - change ((String c pre) ++ "STA (" ++ g ++ ")" ++ post)
      with (String c (pre ++ "STA (" ++ g ++ ")" ++ post)).
    cbn [search_sta]. destruct (match_sta _); [discriminate | exact IH].
Qed.

(** The identity [connect] captures is read off the body: it is a run of
    one or more characters among [0-9A-F:] that stands in the body between
    ["STA ("] and [")"]. *)
Theorem identity_comes_from_body (info g : string) :
  search_sta info = Some g ->
  g <> ""
  /\ all_chars is_mac_char g = true
  /\ contains ("STA (" ++ g ++ ")") info = true.
Proof.
  intros H. destruct (search_sta_spec _ _ H) as (H1 & H2 & pre & post & ->).
  split; [exact H1|]. split; [exact H2|].
  replace (pre ++ "STA (" ++ g ++ ")" ++ post)
    with (pre ++ ("STA (" ++ g ++ ")") ++ post).
  - apply contains_app.
  - f_equal. cbn [append]. do 5 f_equal. now rewrite append_assoc.
Qed.

(** The identity is "Unknown" exactly when the body has no such run between
    ["STA ("] and [")"] anywhere. *)
Theorem identity_unknown_iff_no_address (info : string) :
  mac_of info = "Unknown"
  <-> forall g, g <> "" -> all_chars is_mac_char g = true ->
        contains ("STA (" ++ g ++ ")") info = false.
Proof.
  unfold mac_of. split.
  - intros H g Hne Hg. destruct (search_sta info) as [g'|] eqn:E.
    + subst g'. destruct (search_sta_spec _ _ E) as (_ & Hbad & _). discriminate.
    + destruct (contains ("STA (" ++ g ++ ")") info) eqn:Hc; [|reflexivity].
      apply contains_split in Hc. destruct Hc as (a & b & ->).
      exfalso. apply (search_sta_finds a g b Hne Hg).
      rewrite <- E. f_equal. f_equal. cbn [append]. do 5 f_equal.
      now rewrite append_assoc.
  - intros H. destruct (search_sta info) as [g|] eqn:E; [|reflexivity].
    destruct (search_sta_spec _ _ E) as (Hne & Hg & pre & post & Hs).
    specialize (H g Hne Hg). rewrite Hs in H.
    replace (pre ++ "STA (" ++ g ++ ")" ++ post)
      with (pre ++ ("STA (" ++ g ++ ")") ++ post) in H.
    + rewrite contains_app in H. discriminate.
    + f_equal. cbn [append]. do 5 f_equal. now rewrite append_assoc.
Qed.

End Identity.

Lemma identity_comes_from_body_witness :
  Py.search_sta Fixture.upper_identity = Some "AA:BB:CC:DD:EE:FF"
  /\ Py.contains "STA (AA:BB:CC:DD:EE:FF)" Fixture.upper_identity = true.
Proof.
  destruct (identity_comes_from_body Fixture.upper_identity "AA:BB:CC:DD:EE:FF" eq_refl)
    as (_ & _ & H).
  exact (conj eq_refl H).
Defined.

(** ** Percent-encoding *)
Section Quote.
Import Py Ray5Client.

Lemma hex_digit_code (n : nat) :
  n < 16 ->
  nat_of_ascii (hex_digit n) = if (n <? 10)%nat then 48 + n else 55 + n.
Proof.
  intros H. unfold hex_digit. destruct (n <? 10)%nat; apply nat_ascii_embedding; lia.
Qed.

Lemma hex_digit_safe (n : nat) : n < 16 -> quote_safe (hex_digit n) = true.
Proof. intros H. do 16 (destruct n as [|n]; [reflexivity|]). lia. Qed.

Lemma hex_digit_inj (n m : nat) :
  n < 16 -> m < 16 -> hex_digit n = hex_digit m -> n = m.
Proof.
  intros Hn Hm H. apply (f_equal nat_of_ascii) in H.
  rewrite !hex_digit_code in H by assumption.
  destruct (Nat.ltb_spec n 10), (Nat.ltb_spec m 10); lia.
Qed.

Lemma code_bound (c : ascii) : nat_of_ascii c < 256.
Proof. apply nat_ascii_bounded. Qed.

Lemma append_inj_l (p a b : string) : p ++ a = p ++ b -> a = b.
Proof. induction p; simpl; intros H; [exact H|]. injection H. exact IHp. Qed.

Lemma quote_cons (c : ascii) (s : string) :
  quote (String c s) =
    if quote_safe c then String c (quote s)
    else String "%" (String (hex_digit (nat_of_ascii c / 16))
                       (String (hex_digit (nat_of_ascii c mod 16)) (quote s))).
Proof. reflexivity. Qed.

(** What [quote] writes is made of the characters it leaves alone and of
    the percent sign: no blank, no [?], [&], [#] or [=] reaches the URL. *)
Theorem quote_alphabet (s : string) :
  all_chars (fun c => quote_safe c || (c =? "%")%char) (quote s) = true.
Proof.
  induction s as [|c s IH]; [reflexivity|]. rewrite quote_cons.
  destruct (quote_safe c) eqn:E; cbn [all_chars].
  - now rewrite E, IH.
  - pose proof (code_bound c) as Hc.
    rewrite !hex_digit_safe, IH; [reflexivity | |].
    + apply Nat.mod_upper_bound. lia.
    + apply Nat.Div0.div_lt_upper_bound. lia.
Qed.

(** A string made of the characters [quote] leaves alone is its own
    encoding. *)
Lemma quote_fixes_safe (s : string) : all_chars quote_safe s = true -> quote s = s.
Proof.
  induction s as [|c s IH]; [reflexivity|]. cbn [all_chars quote].
  intros H. apply andb_true_iff in H. destruct H as [Hc Hs].
  now rewrite Hc, IH.
Qed.

Lemma quote_inj (a : string) : forall b, quote a = quote b -> a = b.
Proof.
  induction a as [|c a IH]; intros [|d b]; rewrite ?quote_cons.
  - reflexivity.
  - destruct (quote_safe d); discriminate.
  - destruct (quote_safe c); discriminate.
  - pose proof (code_bound c) as Hc. pose proof (code_bound d) as Hd.
    destruct (quote_safe c) eqn:Ec, (quote_safe d) eqn:Ed; intros H;
      injection H; clear H.
    + intros Hq ->. f_equal. now apply IH.
    + intros _ ->. discriminate.
    + intros _ <-. discriminate.
    + intros Hq Hlo Hhi. f_equal; [|now apply IH].
      change (hex_digit (nat_of_ascii c mod 16) = hex_digit (nat_of_ascii d mod 16))
        in Hlo.
      change (hex_digit (nat_of_ascii c / 16) = hex_digit (nat_of_ascii d / 16))
        in Hhi.
      apply hex_digit_inj in Hlo;
        [| apply Nat.mod_upper_bound; lia | apply Nat.mod_upper_bound; lia].
      apply hex_digit_inj in Hhi;
        [| apply Nat.Div0.div_lt_upper_bound; lia
         | apply Nat.Div0.div_lt_upper_bound; lia].
      rewrite <- (ascii_nat_embedding c), <- (ascii_nat_embedding d). f_equal.
      rewrite (Nat.div_mod_eq (nat_of_ascii c) 16), (Nat.div_mod_eq (nat_of_ascii d) 16).
      rewrite Hlo, Hhi. reflexivity.
Qed.

(** Requests tell their subjects apart: two file names give the same
    delete request, two commands the same command request, two paths the
    same listing request, only when they are equal. *)
Theorem requests_tell_subjects_apart (self : Ray5Client.t) (a b : string) :
  (delete_request self a = delete_request self b -> a = b)
  /\ (command_request self a = command_request self b -> a = b)
  /\ (files_request self a = files_request self b -> a = b).
Proof.
  unfold delete_request, command_request, files_request.
  repeat split; intros H; injection H as H;
    apply append_inj_l in H; cbn [append] in H; repeat (injection H as H);
    now apply quote_inj.
Qed.

End Quote.

(** ** Listing and deleting *)
Section Listing.
Import Py Ray5Client.
Variable w : world.
Variable self : Ray5Client.t.

(** [get_files] makes one request, and writes an error record exactly when
    the query failed; a 200 answer whose object has no ["files"] key counts
    as an empty device and is not an error. *)
Theorem get_files_reports (path : string) :
  filter is_net (snd (get_files w self path)) = [Net (files_request self path)]
  /\ existsb is_error (snd (get_files w self path))
     = query_failed (http w (files_request self path))
  /\ (forall r fields,
        http w (files_request self path) = Return r ->
        status_code r = 200%Z ->
        loads r = Return (JObj fields) ->
        dict_get "files" fields = None ->
        get_files w self path = (JArr [], [Net (files_request self path)])).
Proof.
  split; [|split].
  - unfold get_files. destruct (http w (files_request self path)) as [r|e];
      [|reflexivity].
    destruct (status_code r =? 200)%Z; [|reflexivity].
    destruct (loads r) as [[ |b0|z0|s0|items|fields]|]; try reflexivity.
    now destruct (dict_get "files" fields).
  - unfold get_files, query_failed.
    destruct (http w (files_request self path)) as [r|e]; [|reflexivity].
    destruct (status_code r =? 200)%Z; [|reflexivity].
    destruct (loads r) as [[ |b0|z0|s0|items|fields]|]; try reflexivity.
    now destruct (dict_get "files" fields).
  - intros r fields Hget Hs Hl Hd. unfold get_files.
    rewrite Hget, Hs, Hl, Hd. reflexivity.
Qed.

End Listing.

Section Deleting.
Import Py Ray5Client Ray5App.
Variable w : world.

Lemma emit_nil (s : Ray5App.t) : emit [] s = s.
Proof. destruct s. unfold emit, set_trace. cbn. now rewrite app_nil_r. Qed.

Lemma emit_emit (a b : list event) (s : Ray5App.t) :
  emit b (emit a s) = emit (a ++ b) s.
Proof. unfold emit, set_trace. cbn. now rewrite app_assoc. Qed.

Lemma delete_file_accepted (c : Ray5Client.t) (f : string) :
  delete_ok w c f = true ->
  delete_file w c f
  = ("Delete command sent",
     [Net (delete_request c f); Log INFO ("Deleted " ++ f ++ " successfully")]).
Proof.
  unfold delete_ok, delete_file. destruct (http w (delete_request c f)) as [r|e];
    [|discriminate]. now intros ->.
Qed.

Lemma delete_file_refused (c : Ray5Client.t) (f : string) :
  delete_ok w c f = false ->
  exists msg,
    snd (delete_file w c f) = [Net (delete_request c f); Log ERROR msg]
    /\ prefix "Failed to delete " msg = false
    /\ contains "failed" (lower (fst (delete_file w c f)))
       || contains "error" (lower (fst (delete_file w c f))) = true.
Proof.
  unfold delete_ok, delete_file. destruct (http w (delete_request c f)) as [r|e].
  - intros ->. eexists. split; [reflexivity|]. split; reflexivity.
  - intros _. eexists. split; [reflexivity|]. split; [reflexivity|].
    cbn [fst]. apply orb_true_iff. right. reflexivity.
Qed.

(** The loop of the delete thread in a running application. *)
Lemma delete_loop_running (names : list string) :
  forall s : Ray5App.t,
    running s = true ->
    exists evs,
      delete_loop w names s = (true, emit evs s)
      /\ filter is_net evs = map (fun f => Net (delete_request (client s) f)) names
      /\ filter is_batch_error evs
         = map (fun f => Log ERROR ("Failed to delete " ++ f ++ ": "
                                      ++ fst (delete_file w (client s) f)))
               (filter (fun f => negb (delete_ok w (client s) f)) names).
Proof.
  induction names as [|f rest IH]; intros s Hrun.
  - exists []. cbn. now rewrite emit_nil.
  - cbn [delete_loop map filter]. rewrite Hrun. cbn [negb].
    destruct (delete_ok w (client s) f) eqn:Hok; cbn [negb].
    + rewrite (delete_file_accepted _ _ Hok). cbn [fst].
      change (contains "failed" (lower "Delete command sent")
              || contains "error" (lower "Delete command sent")) with false.
      cbn iota.
      destruct (IH (emit [Net (delete_request (client s) f);
                          Log INFO ("Deleted " ++ f ++ " successfully")] s) Hrun)
        as (evs & Heq & Hnet & Herr).
      eexists. rewrite Heq, emit_emit. split; [reflexivity|].
      cbn [app filter is_net is_batch_error]. rewrite Hnet, Herr. split; reflexivity.
    + destruct (delete_file_refused _ _ Hok) as (msg & Hevs & Hmsg & Hres).
      destruct (delete_file w (client s) f) as [res evs1] eqn:Hdf.
      cbn [fst snd] in *. subst evs1. rewrite Hres.
      destruct (IH (logging ERROR ("Failed to delete " ++ f ++ ": " ++ res)
                      (emit [Net (delete_request (client s) f); Log ERROR msg] s)) Hrun)
        as (evs & Heq & Hnet & Herr).
      eexists. unfold logging in *. rewrite Heq, !emit_emit. split; [reflexivity|].
      cbn [app filter is_net is_batch_error]. rewrite Hmsg.
      assert (Hp : prefix "Failed to delete " ("Failed to delete " ++ f ++ ": " ++ res) = true)
        by apply prefix_app.
      rewrite Hp, Hnet, Herr. cbn [map]. rewrite Hdf. split; reflexivity.
Qed.

(** A delete batch in a running application goes through all its names:
    one delete request per name, in order, whatever the device answers; one
    "Failed to delete" record for each name the device did not accept; and
    at the end a refresh with no new file names is registered. *)
Theorem delete_batch_runs_to_end (names : list string) (s : Ray5App.t) :
  running s = true ->
  exists evs,
    delete_task w names s = after 0 (RefreshList None) (emit evs s)
    /\ filter is_net evs = map (fun f => Net (delete_request (client s) f)) names
    /\ filter is_batch_error evs
       = map (fun f => Log ERROR ("Failed to delete " ++ f ++ ": "
                                    ++ fst (delete_file w (client s) f)))
             (filter (fun f => negb (delete_ok w (client s) f)) names).
Proof.
  intros Hrun. destruct (delete_loop_running names s Hrun) as (evs & Heq & H).
  exists evs. split; [|exact H]. unfold delete_task. rewrite Heq.
  cbn [running emit set_trace]. now rewrite Hrun.
Qed.

End Deleting.

Lemma delete_batch_runs_to_end_witness :
  Ray5App.running Scenario.connected_app = true
  /\ exists evs,
       Ray5App.delete_task eraser ["b.nc"; "a.nc"] Scenario.connected_app
       = Ray5App.after 0 (Ray5App.RefreshList None) (Ray5App.emit evs Scenario.connected_app)
       /\ filter is_net evs
          = [Net (Ray5Client.delete_request Fixture.device "b.nc");
             Net (Ray5Client.delete_request Fixture.device "a.nc")]
       /\ filter is_batch_error evs
          = [Log ERROR "Failed to delete b.nc: Delete failed: 404"].
Proof.
  split; [reflexivity|].
  destruct (delete_batch_runs_to_end eraser ["b.nc"; "a.nc"] Scenario.connected_app eq_refl)
    as (evs & H1 & H2 & H3).
  exists evs. split; [exact H1|]. split; [exact H2 | exact H3].
Defined.

(** ** Reading the paths of a drop *)
Section Dropping.
Import Py Ray5App.






(** Every word [split] returns is non-empty and free of white space. *)
Lemma split_from_words (s : string) :
  forall cur,
    all_chars (fun c => negb (is_space c)) cur = true ->
    Forall (fun x => x <> "" /\ all_chars (fun c => negb (is_space c)) x = true)
           (split_from cur s).
Proof.
  induction s as [|c s IH]; intros cur Hcur; cbn [split_from].
  - destruct cur; constructor; [|constructor]. split; [discriminate | exact Hcur].
  - destruct (is_space c) eqn:Hc.
    + destruct cur.
      * now apply IH.
      * constructor; [split; [discriminate | exact Hcur]|]. now apply IH.
    + apply IH. rewrite all_chars_app, Hcur. cbn. now rewrite Hc.
Qed.












(** The words of a drop without braces: none is empty, none has white
    space in it. *)
Theorem drop_words_are_words (data : string) :
  contains "{" data = false ->
  Forall (fun x => x <> "" /\ all_chars (fun c => negb (is_space c)) x = true)
         (drop_paths data).
Proof.
  intros H. unfold drop_paths. rewrite H. now apply split_from_words.
Qed.

End Dropping.


Lemma drop_words_are_words_witness :
  Forall (fun x => x <> "" /\ all_chars (fun c => negb (Py.is_space c)) x = true)
         (Ray5App.drop_paths "  a.nc   b.nc ").
Proof. exact (drop_words_are_words "  a.nc   b.nc " eq_refl). Defined.

(** ** What every step keeps *)
Section Invariants.
Import Py Ray5Client Ray5App.
Variable w : world.

Ltac branches :=
  repeat match goal with
         | |- context [if ?b then _ else _] => destruct b eqn:?
         end.

Ltac frame := unfold same_session, same_window; fields; repeat split; reflexivity.

Lemma same_session_refl (s : Ray5App.t) : same_session s s.
Proof. frame. Qed.

Lemma same_session_emit (evs : list event) (s : Ray5App.t) : same_session s (emit evs s).
Proof. frame. Qed.

Lemma same_session_trans (a b c : Ray5App.t) :
  same_session a b -> same_session b c -> same_session a c.
Proof.
  unfold same_session, same_window. intros H1 H2.
  repeat match goal with H : _ /\ _ |- _ => destruct H end.
  repeat split; congruence.
Qed.

Lemma upload_loop_emits (paths : list string) :
  forall names s, exists evs, snd (upload_loop w paths names s) = emit evs s.
Proof.
  induction paths as [|p rest IH]; intros names s; cbn [upload_loop].
  - exists []. now rewrite emit_nil.
  - destruct (running s); cbn [negb]; [|exists []; now rewrite emit_nil].
    destruct (isdir w p); [apply IH|].
    destruct (upload_file w (client s) p "/") as [[res|e] evs].
    + destruct (contains "successful" (lower res)).
      * destruct (IH (names ++ [basename p])%list (emit evs s)) as [evs' H].
        exists (evs ++ evs')%list. now rewrite H, emit_emit.
      * destruct (IH names (logging ERROR ("Failed to upload " ++ basename p ++ ": " ++ res)
                              (emit evs s))) as [evs' H].
        eexists. rewrite H. unfold logging. rewrite !emit_emit. reflexivity.
    + exists evs. reflexivity.
Qed.

Lemma delete_loop_emits (names : list string) :
  forall s, exists evs, snd (delete_loop w names s) = emit evs s.
Proof.
  induction names as [|f rest IH]; intros s; cbn [delete_loop].
  - exists []. now rewrite emit_nil.
  - destruct (running s); cbn [negb]; [|exists []; now rewrite emit_nil].
    destruct (delete_file w (client s) f) as [res evs].
    destruct (contains "failed" (lower res) || contains "error" (lower res)).
    + destruct (IH (logging ERROR ("Failed to delete " ++ f ++ ": " ++ res) (emit evs s)))
        as [evs' H].
      eexists. rewrite H. unfold logging. rewrite !emit_emit. reflexivity.
    + destruct (IH (emit evs s)) as [evs' H]. eexists. rewrite H, emit_emit. reflexivity.
Qed.

(** The connect thread writes the client, the identity and the stored
    configuration, and nothing of the window. *)
Lemma connect_task_window (ip : string) (s : Ray5App.t) :
  same_window s (connect_task w ip s).
Proof.
  rewrite connect_task_resume. unfold connect_resume, save_config.
  destruct (open_w w "config.json"); branches; frame.
Qed.

Lemma refresh_task_session (nf : option (list string)) (s : Ray5App.t) :
  same_session s (refresh_task w nf s).
Proof.
  unfold refresh_task. destruct (get_files w (client s) "/") as [files evs].
  branches; frame.
Qed.

Lemma check_session (s : Ray5App.t) : same_session s (check w s).
Proof.
  unfold check, check_resume.
  destruct (send_command w (client s) "[ESP400]") as [res evs]. branches; frame.
Qed.

Lemma upload_task_session (paths : list string) (s : Ray5App.t) :
  same_session s (upload_task w paths s).
Proof.
  unfold upload_task. destruct (upload_loop_emits paths [] s) as [evs H].
  destruct (upload_loop w paths [] s) as [[[names|]|e] s']; cbn [snd] in H; subst s';
    branches; frame.
Qed.

Lemma delete_task_session (names : list string) (s : Ray5App.t) :
  same_session s (delete_task w names s).
Proof.
  unfold delete_task. destruct (delete_loop_emits names s) as [evs H].
  destruct (delete_loop w names s) as [[|] s']; cbn [snd] in H; subst s';
    branches; frame.
Qed.


Lemma populate_rows_running (nf : option (list string)) (entries : list json) :
  forall s, running (populate_rows entries nf s) = running s.
Proof.
  induction entries as [|e rest IH]; intros s; [reflexivity|].
  rewrite populate_rows_cons. destruct e; try reflexivity.
  rewrite IH. cbn [populate_rows tree_insert]. unfold fade_item.
  branches; fields; reflexivity.
Qed.

(** No callback and no button but the closing of the window touches the
    running flag. *)
Lemma run_callback_running (cb : callback) (s : Ray5App.t) :
  running (run_callback w cb s) = running s.
Proof.
  destruct cb; cbn [run_callback];
    try (destruct (running s) eqn:Hrun; [|exact Hrun]).
  - unfold on_connected, update_status_text, refresh_list. branches; fields; congruence.
  - exact Hrun.
  - unfold flash_dot, fade_dot. branches; fields; congruence.
  - now destruct (check_session s) as [[H _] _].
  - unfold fade_dot. branches; fields; congruence.
  - unfold populate_tree. destruct files; try exact Hrun.
    now rewrite populate_rows_running.
  - unfold fade_item. branches; fields; congruence.
  - unfold update_status_text. branches; fields; congruence.
  - unfold refresh_list. branches; fields; congruence.
Qed.

(** Only closing the window stops the application, and nothing starts it
    again: a step leaves the running flag as it is unless it is the closing
    of the window, which clears it. *)
Theorem only_closing_stops (a : action) (s : Ray5App.t) :
  running (act w a s) = match a with Close => false | _ => running s end.
Proof.
  destruct a; cbn [act].
  - unfold connect. branches; fields; reflexivity.
  - reflexivity.
  - unfold toggle_connect, connect. branches; fields; reflexivity.
  - reflexivity.
  - unfold refresh_list. branches; fields; reflexivity.
  - unfold upload, perform_upload. destruct chosen; branches; fields; reflexivity.
  - unfold handle_drop, perform_upload. destruct (drop_paths data);
      branches; fields; reflexivity.
  - unfold fire. destruct (nth_error (timers s) n) as [[ms cb]|]; [|reflexivity].
    now rewrite run_callback_running.
  - unfold join. destruct (nth_error (threads s) n) as [wk|]; [|reflexivity].
    destruct wk as [ip0| |nf|paths]; cbn [run_worker].
    + now destruct (connect_task_window ip0 (set_threads (remove_nth n (threads s)) s)).
    + now destruct (check_session (set_threads (remove_nth n (threads s)) s)) as [[H _] _].
    + now destruct (refresh_task_session nf
                      (set_threads (remove_nth n (threads s)) s)) as [[H _] _].
    + now destruct (upload_task_session paths
                      (set_threads (remove_nth n (threads s)) s)) as [[H _] _].
  - now destruct (delete_task_session filenames s) as [[H _] _].
Qed.


Lemma ids_below_empty (s : Ray5App.t) : tree s = [] -> ids_below s.
Proof. unfold ids_below. intros ->. constructor. Qed.






End Invariants.


(** Closing is final: once the window is closed, no callback, no thread
    and no file operation changes the session or the window any more. *)
Theorem closing_freezes (w : Ray5Client.world) (a : action) (s : Ray5App.t) :
  Ray5App.running s = false ->
  match a with
  | Connect | Disconnect | Toggle => True
  | _ => same_session s (act w a s)
  end.
Proof.
  intros Hrun. destruct a; cbn [act]; auto.
  - unfold same_session, same_window, Ray5App.on_closing. cbn.
    repeat split; auto.
  - unfold Ray5App.refresh_list. rewrite Hrun, orb_true_r. apply same_session_refl.
  - unfold Ray5App.upload. rewrite Hrun, orb_true_r. apply same_session_refl.
  - unfold Ray5App.handle_drop, Ray5App.perform_upload. rewrite Hrun.
    destruct (negb (Ray5App.connected s)); [apply same_session_emit|].
    destruct (Ray5App.drop_paths data); apply same_session_refl.
  - unfold Ray5App.fire.
    destruct (nth_error (Ray5App.timers s) n) as [[ms cb]|]; [|apply same_session_refl].
    rewrite run_callback_closing by exact Hrun.
    unfold same_session, same_window. cbn. repeat split; reflexivity.
  - unfold Ray5App.join.
    destruct (nth_error (Ray5App.threads s) n) as [wk|]; [|apply same_session_refl].
    set (s' := Ray5App.set_threads _ s).
    assert (Hs' : same_session s s')
      by (unfold same_session, same_window; cbn; repeat split; reflexivity).
    apply (same_session_trans _ _ _ Hs').
    destruct wk; cbn [Ray5App.run_worker].
    + rewrite connect_task_resume. unfold Ray5App.connect_resume.
      replace (Ray5App.running (Ray5App.emit _ s')) with false by (symmetry; exact Hrun).
      apply same_session_emit.
    + apply check_session.
    + apply refresh_task_session.
    + apply upload_task_session.
  - apply delete_task_session.
Qed.

Lemma closing_freezes_witness :
  same_session (Ray5App.on_closing Scenario.uploaded_app)
    (act Scenario.online (Fire 0) (Ray5App.on_closing Scenario.uploaded_app)).
Proof.
  exact (closing_freezes Scenario.online (Fire 0)
           (Ray5App.on_closing Scenario.uploaded_app) eq_refl).
Defined.

(** ** From an upload to the marked rows *)
Section Pipeline.
Import Py Ray5Client Ray5App.








End Pipeline.


(** ** The pulse of the dot *)
Section Pulse.
Import Py Ray5Client Ray5App.
Variable w : world.

Lemma pulse_state (s : Ray5App.t) (k : nat) :
  running s = true ->
  let sk := Nat.iter k (fire w (length (timers s))) (flash_dot s) in
  running sk = true
  /\ dot sk = pulse_after k
  /\ timers sk = (timers s ++ pulse_pending k)%list
  /\ same_session (set_dot (dot sk) s) sk.
Proof.
  intros Hrun sk. subst sk. induction k as [|k IH].
  - change (Nat.iter 0 (fire w (length (timers s))) (flash_dot s)) with (flash_dot s).
    unfold flash_dot, fade_dot. rewrite Hrun. fields. rewrite Hrun. cbn [negb orb].
    change (10 <=? 0)%Z with false. cbn iota. fields.
    repeat split; try reflexivity; exact Hrun.
  - rewrite Nat.iter_succ. destruct IH as (Hr & Hd & Hq & Hs).
    set (sk := Nat.iter k (fire w (length (timers s))) (flash_dot s)) in *.
    unfold pulse_pending in Hq. unfold pulse_after in Hd.
    destruct (k <? 10)%nat eqn:Hlt.
    + apply Nat.ltb_lt in Hlt.
      rewrite (fire_last w _ _ _ _ Hq). unfold run_callback. fields. rewrite Hr.
      unfold fade_dot. fields. rewrite Hr. cbn [negb orb].
      unfold pulse_after, pulse_pending.
      destruct Hs as ((H1 & H2 & H3 & H4 & H5 & H6 & H7 & H8 & _) & H9 & H10 & H11).
      cbn [running connected tree next_iid status_label btn_connect ip_entry_enabled
           ip_var dot client current_mac config_json set_dot] in *.
      destruct (9 - Z.of_nat k <=? 0)%Z eqn:Hz.
      * apply Z.leb_le in Hz. assert (k = 9) by lia. subst k.
        cbn [Nat.ltb Nat.leb]. fields. rewrite app_nil_r.
        unfold same_session, same_window. fields. repeat split; auto.
      * apply Z.leb_gt in Hz.
        assert (Hlt' : (S k <? 10)%nat = true) by (apply Nat.ltb_lt; lia).
        rewrite Hlt'. fields.
        replace (10 - Z.of_nat (S k))%Z with (9 - Z.of_nat k)%Z by lia.
        replace (9 - Z.of_nat (S k))%Z with (9 - Z.of_nat k - 1)%Z by lia.
        unfold same_session, same_window. fields. repeat split; auto.
    + rewrite app_nil_r in Hq.
      assert (Hid : fire w (length (timers s)) sk = sk).
      { unfold fire. now rewrite Hq, nth_error_end. }
      rewrite Hid. unfold pulse_after, pulse_pending.
      apply Nat.ltb_ge in Hlt.
      assert (Hlt' : (S k <? 10)%nat = false) by (apply Nat.ltb_ge; lia).
      rewrite Hlt', app_nil_r. auto.
Qed.

(** A heartbeat makes the dot pulse for ten callbacks, fifty milliseconds
    apart: the [k]-th leaves the shade of step [10 - k] while [k < 10]; from
    the tenth on the dot is dark green and nothing is pending for it.  The
    pulse looks at the running flag only: it runs to its end, and leaves
    the session as it is, also when the session is no longer Connected. *)
Theorem pulse_lasts_ten_steps (s : Ray5App.t) (k : nat) :
  running s = true ->
  let sk := Nat.iter k (fire w (length (timers s))) (flash_dot s) in
  dot sk = (if (k <? 10)%nat then Shade (10 - Z.of_nat k) else DarkGreen)
  /\ timers sk
     = (timers s ++ if (k <? 10)%nat then [(50%Z, FadeDot (9 - Z.of_nat k))] else [])%list
  /\ connected sk = connected s
  /\ tree sk = tree s.
Proof.
  intros Hrun sk. destruct (pulse_state s k Hrun) as (_ & Hd & Hq & (_ & Hc & Ht & _) & _).
  fold sk in Hd, Hq, Hc, Ht. repeat split; assumption.
Qed.

End Pulse.

Lemma pulse_lasts_ten_steps_witness :
  let s := Ray5App.disconnect Scenario.connected_app in
  Ray5App.running s = true
  /\ Ray5App.dot (Nat.iter 9 (Ray5App.fire Scenario.online 0) (Ray5App.flash_dot s))
     = Ray5App.Shade 1
  /\ Ray5App.dot (Nat.iter 10 (Ray5App.fire Scenario.online 0) (Ray5App.flash_dot s))
     = Ray5App.DarkGreen.
Proof.
  intros s.
  destruct (pulse_lasts_ten_steps Scenario.online s 9 eq_refl) as (H9 & _).
  destruct (pulse_lasts_ten_steps Scenario.online s 10 eq_refl) as (H10 & _).
  exact (conj eq_refl (conj H9 H10)).
Defined.

(** ** A device that does not answer *)
Section Unreachable.
Import Py Ray5Client Ray5App.
Variable w : world.

(** A handshake whose request fails (time-out, refused connection) fails
    the attempt: the session, the identity and the stored configuration stay
    as they were, the label reads "Connection Failed", and the log has the
    request and two error records.  The text of the failure must not itself
    hold the firmware marker: the thread reads it as if it were a body. *)
Theorem connect_unreachable (ip e : string) (s : Ray5App.t) :
  running s = true ->
  http w (handshake ip) = Raise e ->
  contains "FW version" e = false ->
  let s1 := connect_task w ip s in
  let s2 := run_callback w ConnectionFailed s1 in
  timers s1 = (timers s ++ [(0%Z, ConnectionFailed)])%list
  /\ trace s1
     = (trace s
          ++ [Net (handshake ip);
              Log ERROR ("Command error ([ESP420]): " ++ e);
              Log ERROR ("Could not connect to laser at " ++ ip
                           ++ ". Response: Command error: " ++ e)])%list
  /\ same_session s s1
  /\ status_label s2 = "Connection Failed"
  /\ connected s2 = connected s.
Proof.
  intros Hrun Hget Hfw s1 s2.
  assert (E : s1 = after 0 ConnectionFailed
                     (logging ERROR ("Could not connect to laser at " ++ ip
                                       ++ ". Response: Command error: " ++ e)
                        (emit [Net (handshake ip);
                               Log ERROR ("Command error ([ESP420]): " ++ e)] s))).
  { subst s1. rewrite connect_task_resume. unfold send_command.
    fold (handshake ip). rewrite Hget. cbn [fst snd].
    apply connect_resume_no_marker; [exact Hrun|]. exact Hfw. }
  subst s2. rewrite E. unfold run_callback, same_session, same_window. fields.
  rewrite Hrun, <- app_assoc. fields. repeat split; reflexivity.
Qed.

(** A heartbeat whose request fails is a missed beat and nothing more: no
    pulse is registered, the next turn is, and the session stays as it is,
    Connected included. *)
Theorem missed_heartbeat_keeps_session (e : string) (s : Ray5App.t) :
  running s = true ->
  connected s = true ->
  http w (heartbeat (client s)) = Raise e ->
  timers (check w s) = (timers s ++ [(2000%Z, Check)])%list
  /\ same_session s (check w s).
Proof.
  intros Hrun Hcon Hget. split; [|apply check_session].
  unfold check. rewrite Hrun, Hcon. cbn [negb].
  pose proof (send_command_raise_has_marker w (client s) "[ESP400]" e Hget) as Hm.
  destruct (send_command w (client s) "[ESP400]") as [res evs]. cbn [fst] in Hm.
  rewrite check_resume_running by exact Hrun. rewrite Hm. reflexivity.
Qed.

End Unreachable.

Lemma connect_unreachable_witness :
  Ray5App.status_label
    (Ray5App.run_callback eraser Ray5App.ConnectionFailed
       (Ray5App.connect_task eraser "192.168.1.101" Ray5App.new))
  = "Connection Failed".
Proof.
  destruct (connect_unreachable eraser "192.168.1.101" "timed out" Ray5App.new
              eq_refl eq_refl eq_refl) as (_ & _ & _ & H & _).
  exact H.
Defined.

Lemma missed_heartbeat_keeps_session_witness :
  Ray5App.timers (Ray5App.check eraser Scenario.connected_app)
  = [(2000%Z, Ray5App.Check)].
Proof.
  destruct (missed_heartbeat_keeps_session eraser "timed out" Scenario.connected_app
              eq_refl eq_refl eq_refl) as (H & _).
  exact H.
Defined.

(** ** What a plain refresh shows *)
Section Showing.
Import Py Ray5Client Ray5App.
Variable w : world.

Lemma rows_from_objects (nf : option (list string)) (rows : list (list (string * json))) :
  forall i,
    map (fun it => (name it, size it)) (rows_from i (map JObj rows) nf)
    = map (fun f => (get_or_none "name" f, get_or_none "size" f)) rows.
Proof.
  induction rows as [|f rest IH]; intros i; [reflexivity|].
  cbn [map rows_from name size]. now rewrite IH.
Qed.

Lemma rows_from_unmarked (entries : list json) :
  forall i, Forall (fun it => tags it = []) (rows_from i entries None).
Proof.
  induction entries as [|e rest IH]; intros i; [constructor|].
  destruct e; cbn [rows_from];
    [constructor | constructor | constructor | constructor | constructor |].
  constructor; [reflexivity | apply IH].
Qed.

Lemma countdowns_unmarked (rows : list item) :
  Forall (fun it => tags it = []) rows -> countdowns rows = [] /\ 
  filter (fun it => match tags it with [] => false | _ => true end) rows = [].
Proof.
  induction 1 as [|it rows Hit _ [IH1 IH2]]; [split; reflexivity|].
  unfold countdowns in *. cbn [flat_map filter]. rewrite Hit, IH1, IH2. split; reflexivity.
Qed.

(** A refresh with no new file names (the button, the first listing after
    connecting, the one after a delete) shows the listing as the device gave
    it: one row per entry, in the order of the listing, with the name and
    size of the entry ([None] for a key the entry lacks), no row marked and
    no countdown registered. *)
Theorem refresh_shows_listing (rows : list (list (string * json))) (s : Ray5App.t) :
  connected s = true ->
  running s = true ->
  fst (get_files w (client s) "/") = JArr (map JObj rows) ->
  let s3 := fire w (length (timers s)) (refresh_task w None (refresh_list None s)) in
  map (fun it => (name it, size it)) (tree s3)
  = map (fun f => (get_or_none "name" f, get_or_none "size" f)) rows
  /\ marked s3 = []
  /\ timers s3 = timers s.
Proof.
  intros Hcon Hrun Hfiles s3.
  destruct (refresh_in_flight w None s Hcon Hrun) as (_ & _ & Hfire & Htree & Hnext & Hrun2).
  rewrite Hfiles in Hfire. cbn [populate_tree] in Hfire.
  set (base := set_timers (timers s) (refresh_task w None (refresh_list None s))) in *.
  assert (Hb : ids_below base) by (apply ids_below_empty; exact Htree).
  destruct (populate_rows_closed None (map JObj rows) base Hrun2 Hb) as (Ht & Hq & _ & _).
  fold s3 in Hfire. rewrite <- Hfire in Ht, Hq.
  change (tree base) with (tree (refresh_task w None (refresh_list None s))) in Ht.
  rewrite Htree in Ht. cbn [app] in Ht.
  destruct (countdowns_unmarked _ (rows_from_unmarked (map JObj rows) (next_iid base)))
    as [Hc Hm].
  rewrite Hc, app_nil_r in Hq.
  split; [rewrite Ht; apply rows_from_objects|].
  split; [unfold marked; rewrite Ht; exact Hm | exact Hq].
Qed.

End Showing.

(** The scenario of the specification: a listing of [a.nc] and [b.nc]. *)
Lemma refresh_shows_listing_witness :
  map (fun it => (Ray5App.name it, Ray5App.size it))
      (Ray5App.tree
         (Ray5App.fire Scenario.online 1
            (Ray5App.refresh_task Scenario.online None
               (Ray5App.refresh_list None Scenario.uploaded_app))))
  = [(Py.JStr "a.nc", Py.JNum 120); (Py.JStr "b.nc", Py.JNum 340)].
Proof.
  destruct (refresh_shows_listing Scenario.online
              [[("name", Py.JStr "a.nc"); ("size", Py.JNum 120)];
               [("name", Py.JStr "b.nc"); ("size", Py.JNum 340)]]
              Scenario.uploaded_app eq_refl eq_refl eq_refl) as (H & _).
  change (length (Ray5App.timers Scenario.uploaded_app)) with 1 in H.
  exact H.
Defined.

(** ** Starting again *)
Section Restart.
Import Py Ray5Client Ray5App.

Lemma rstrip_cons (c : ascii) (s : string) :
  is_space c = false -> rstrip (String c s) = String c (rstrip s).
Proof. intros H. cbn [rstrip]. rewrite H. now destruct (rstrip s). Qed.

Lemma rstrip_eq (c : ascii) (s : string) :
  rstrip (String c s) =
    match rstrip s with
    | EmptyString => if is_space c then EmptyString else String c EmptyString
    | kept => String c kept
    end.
Proof. reflexivity. Qed.

Lemma rstrip_rstrip (s : string) : rstrip (rstrip s) = rstrip s.
Proof.
  induction s as [|c s IH]; [reflexivity|]. rewrite rstrip_eq.
  destruct (rstrip s) as [|d kept] eqn:E.
  - destruct (is_space c) eqn:Hc; [reflexivity|]. rewrite rstrip_eq. cbn [rstrip].
    now rewrite Hc.
  - rewrite rstrip_eq, IH. reflexivity.
Qed.

Lemma lstrip_head (s : string) :
  match lstrip s with
  | String c _ => is_space c = false
  | EmptyString => True
  end.
Proof.
  induction s as [|c s IH]; [exact I|]. cbn [lstrip].
  destruct (is_space c) eqn:Hc; [exact IH | exact Hc].
Qed.

(** [strip] has nothing left to strip. *)
Lemma strip_strip (s : string) : strip (strip s) = strip s.
Proof.
  unfold strip. pose proof (lstrip_head s) as H.
  destruct (lstrip s) as [|c t]; [reflexivity|].
  rewrite (rstrip_cons c t H). cbn [lstrip]. rewrite H.
  rewrite (rstrip_cons c _ H), rstrip_rstrip. reflexivity.
Qed.

(** The address a connection was saved under is the address the next start
    connects to: with the configuration [save_config] wrote for a stripped,
    non-empty address the device library accepts, the application starts the
    handshake with that address, and the keepalive loop after it. *)
Theorem saved_address_is_reconnected
    (w w' : world) (mac x : string) (s : Ray5App.t) :
  open_w w "config.json" = Return tt ->
  strip x <> "" ->
  inet_aton w' (strip x) = true ->
  let s' := startup w' (config_json (save_config w mac (strip x) s)) in
  threads s' = [ConnectTask (strip x); CheckTask]
  /\ ip_var s' = strip x
  /\ status_label s' = "Connecting..."
  /\ connected s' = false.
Proof.
  intros Hw Hne Hok s'. subst s'. rewrite (config_saved w mac (strip x) s Hw).
  pose proof (strip_strip x) as Hip.
  cbn [config_json set_config_json]. unfold startup, config_of.
  change (dict_get "last_ip" [("last_mac", JStr mac); ("last_ip", JStr (strip x))])
    with (Some (JStr (strip x))).
  destruct (strip x) as [|c t]; [now elim Hne|].
  unfold connect, is_valid_ip, start_keepalive. cbn [ip_var set_ip_var set_config_json].
  rewrite Hip, Hok. cbn [negb]. repeat split; reflexivity.
Qed.

End Restart.

Lemma saved_address_is_reconnected_witness :
  Ray5App.threads
    (Ray5App.startup Scenario.online
       (Ray5App.config_json
          (Ray5App.save_config Scenario.online "AA:BB:CC:DD:EE:FF"
             (Py.strip " 192.168.1.101 ") Ray5App.new)))
  = [Ray5App.ConnectTask "192.168.1.101"; Ray5App.CheckTask].
Proof.
  assert (Hne : Py.strip " 192.168.1.101 " <> "") by discriminate.
  destruct (saved_address_is_reconnected Scenario.online Scenario.online
              "AA:BB:CC:DD:EE:FF" " 192.168.1.101 " Ray5App.new
              eq_refl Hne eq_refl) as (H & _).
  exact H.
Defined.

(** ** After disconnecting *)
Section Disconnected.
Import Py Ray5Client Ray5App.
Variable w : world.

(** After [disconnect] the tree is empty and nothing starts on its own:
    the countdowns still pending find no row, the refresh and upload buttons
    and the delete button do nothing, a drop is only logged, and the
    keepalive loop turns without sending.  (Threads already started are
    another matter.) *)
Theorem after_disconnect_nothing_starts
    (s : Ray5App.t) (nf : option (list string)) (chosen names : list string)
    (data : string) (confirmed : bool) (i : nat) (n : Z) :
  let d := disconnect s in
  connected d = false
  /\ tree d = []
  /\ run_callback w (FadeItem i n) d = d
  /\ refresh_list nf d = d
  /\ upload chosen d = d
  /\ delete names confirmed d = (d, None)
  /\ threads (handle_drop data d) = threads d
  /\ filter is_net (trace (handle_drop data d)) = filter is_net (trace d)
  /\ filter is_net (trace (check w d)) = filter is_net (trace d).
Proof.
  intros d.
  assert (Hc : connected d = false) by reflexivity.
  assert (Ht : tree d = []) by reflexivity.
  split; [exact Hc|]. split; [exact Ht|].
  split.
  { unfold run_callback. destruct (running d); [|reflexivity].
    apply fade_item_absent. unfold tree_exists. now rewrite Ht. }
  split; [unfold refresh_list; now rewrite Hc|].
  split; [unfold upload; now rewrite Hc|].
  split; [unfold delete; now rewrite Hc|].
  unfold handle_drop, check. rewrite Hc. cbn [negb].
  split; [reflexivity|]. split.
  - unfold logging, emit, set_trace. cbn [trace]. rewrite filter_app. cbn.
    now rewrite app_nil_r.
  - destruct (running d); reflexivity.
Qed.

End Disconnected.

(** ** What [upload_file] sends *)
Section Sending.
Import Py Ray5Client.
Variable w : world.
Variable self : Ray5Client.t.

(** [upload_file] sends one request, the upload of the file under its base
    name and with the size read, when the size could be read and the file
    opened; otherwise it sends nothing. *)
Theorem upload_file_sends_only_opened (local_path remote_path : string) :
  filter is_net (snd (upload_file w self local_path remote_path))
  = match getsize w local_path, open_rb w local_path with
    | Return filesize, Return _ =>
        [Net (upload_request self remote_path (basename local_path) filesize)]
    | _, _ => []
    end.
Proof.
  unfold upload_file. destruct (getsize w local_path) as [sz|e]; [|reflexivity].
  destruct (open_rb w local_path) as [[]|e]; [|reflexivity].
  destruct (http w _) as [r|e]; [|reflexivity].
  now destruct (status_code r =? 200)%Z.
Qed.

End Sending.
